(** * CSV export of the library manager (libraryManager.js)

    A shallow embedding of the export path of the [LibraryManager]
    component: [formatCsvCell], the document built by [handleExportClick]
    and the delivery performed by [downloadCsv].

    JavaScript strings are sequences of UTF-16 code units; the regular
    expressions of the source carry no [u] flag, so they inspect one code
    unit at a time.  A string is therefore a list of code units, each an
    [N] below 65536. *)

From Stdlib Require Import NArith ZArith List String Ascii Bool Lia.
Import ListNotations.

Local Open Scope N_scope.

(** ** Strings *)

Module JsString.

Definition code_unit := N.
Definition jsstring := list code_unit.

(** An ASCII literal of the source, as code units. *)
Definition lit (s : string) : jsstring :=
  map N_of_ascii (list_ascii_of_string s).

Definition quote : code_unit := 34.      (* U+0022, the double quote *)
Definition comma : code_unit := 44.      (* U+002C *)
Definition newline : code_unit := 10.    (* U+000A *)
Definition bom : code_unit := 65279.     (* U+FEFF *)

(** Every code unit fits in sixteen bits. *)
Definition wf_string (s : jsstring) : Prop := Forall (fun c => c < 65536) s.

(** [WhiteSpace] and [LineTerminator] of ECMAScript: what the character
    class escape [\s] matches. *)
Definition is_js_whitespace (c : code_unit) : bool :=
  (c =? 9) || (c =? 10) || (c =? 11) || (c =? 12) || (c =? 13) ||
  (c =? 32) || (c =? 160) || (c =? 5760) ||
  ((8192 <=? c) && (c <=? 8202)) ||
  (c =? 8232) || (c =? 8233) || (c =? 8239) || (c =? 8287) ||
  (c =? 12288) || (c =? 65279).

(** [s.replace(re, r)] for the global one-quote pattern of the source and
    a replacement [r] without [$]: every quote of [s] becomes [r], all
    else is kept. *)
Fixpoint replace_quotes (r s : jsstring) : jsstring :=
  match s with
  | [] => []
  | c :: t =>
      if c =? quote then r ++ replace_quotes r t
      else c :: replace_quotes r t
  end.

(** [s.search(re)] for a one-code-unit pattern [p]: the index of the
    first match, or -1.  [from] is the index of the head of [s]. *)
Fixpoint search_from (p : code_unit -> bool) (s : jsstring) (from : Z) : Z :=
  match s with
  | [] => (-1)%Z
  | c :: t => if p c then from else search_from p t (from + 1)%Z
  end.

Definition search (p : code_unit -> bool) (s : jsstring) : Z :=
  search_from p s 0%Z.

(** [a.join(sep)] on an array of strings. *)
Fixpoint join (sep : jsstring) (a : list jsstring) : jsstring :=
  match a with
  | [] => []
  | x :: t =>
      match t with
      | [] => x
      | _ :: _ => x ++ sep ++ join sep t
      end
  end.

(** [a.push(x)]. *)
Definition push {A : Type} (a : list A) (x : A) : list A := a ++ [x].

End JsString.
Import JsString.

(** ** Values *)

(** The values a record field can hold.  Numbers are left out: their
    [toString] is floating-point formatting. *)
Inductive value : Type :=
| VUndefined
| VNull
| VBoolean (b : bool)
| VString (s : jsstring).

(** [v == null] *)
Definition loosely_null (v : value) : bool :=
  match v with
  | VUndefined | VNull => true
  | _ => false
  end.

(** ** formatCsvCell *)

(** The alternation of the search pattern (quote, comma, newline, [\s]),
    on one code unit. *)
Definition needs_wrap (c : code_unit) : bool :=
  (c =? quote) || (c =? comma) || (c =? newline) || is_js_whitespace c.

(** Steps 1 and 2 of [formatCsvCell], on the text [value.toString()]. *)
Definition escapeText (text : jsstring) : jsstring :=
  let cell := replace_quotes [quote; quote] text in
  if (0 <=? search needs_wrap cell)%Z
  then [quote] ++ cell ++ [quote]
  else cell.

(** [value == null] holds of null and of undefined; on the other values
    [toString] is the value itself for a string, and [true] or [false]
    for a boolean. *)
Definition formatCsvCell (v : value) : jsstring :=
  match v with
  | VUndefined | VNull => [quote; quote]
  | VBoolean true => escapeText (lit "true")
  | VBoolean false => escapeText (lit "false")
  | VString s => escapeText s
  end.

(** ** Records handed over by the book list *)

Module Author.
Record t : Type := { Name : value }.
End Author.

(** [Author__r] is [None] when the relationship is falsy (absent or null). *)
Module Book.
Record t : Type := {
  Id : value;
  Name : value;
  Book_Genre__c : value;
  Author__r : option Author.t
}.
End Book.

(** ** The document of handleExportClick *)

Definition headers : list jsstring :=
  [lit "Book Name"; lit "Author"; lit "Genre"].

(** The [row] array filled by the callback of [bookData.forEach]. *)
Definition bookRow (book : Book.t) : list jsstring :=
  let row := [] in
  let row := push row (formatCsvCell (Book.Name book)) in
  let row := push row (formatCsvCell
                         (match Book.Author__r book with
                          | Some a => Author.Name a
                          | None => VString []
                          end)) in
  let row := push row (formatCsvCell (Book.Book_Genre__c book)) in
  row.

(** [csvLines] once the loop has run. *)
Definition csvLines (bookData : list Book.t) : list jsstring :=
  let csvLines := [] in
  let csvLines := push csvLines (join [comma] headers) in
  fold_left (fun csvLines book => push csvLines (join [comma] (bookRow book)))
            bookData csvLines.

Definition csvString (bookData : list Book.t) : jsstring :=
  join [newline] (csvLines bookData).

(** ** encodeURI *)

Module Uri.

Definition is_ascii_word (c : code_unit) : bool :=
  ((65 <=? c) && (c <=? 90)) || ((97 <=? c) && (c <=? 122)) ||
  ((48 <=? c) && (c <=? 57)) || (c =? 95).

Definition mem_lit (c : code_unit) (s : string) : bool :=
  existsb (N.eqb c) (lit s).

(** The code units [encodeURI] copies: the always-unescaped set of
    [Encode] and the reserved characters with the number sign. *)
Definition unescaped (c : code_unit) : bool :=
  is_ascii_word c || mem_lit c "-.!~*'()" || mem_lit c ";/?:@&=+$,#".

Definition is_leading_surrogate (c : code_unit) : bool :=
  (55296 <=? c) && (c <=? 56319).
Definition is_trailing_surrogate (c : code_unit) : bool :=
  (56320 <=? c) && (c <=? 57343).

Definition surrogate_pair (lead trail : code_unit) : N :=
  (lead - 55296) * 1024 + (trail - 56320) + 65536.

Definition utf8_octets (cp : N) : list N :=
  if cp <=? 127 then [cp]
  else if cp <=? 2047 then [192 + cp / 64; 128 + cp mod 64]
  else if cp <=? 65535 then
    [224 + cp / 4096; 128 + (cp / 64) mod 64; 128 + cp mod 64]
  else
    [240 + cp / 262144; 128 + (cp / 4096) mod 64;
     128 + (cp / 64) mod 64; 128 + cp mod 64].

Definition hex_digit (d : N) : code_unit :=
  if d <? 10 then 48 + d else 55 + d.

(** A percent sign and the two upper-case hexadecimal digits of an
    octet. *)
Definition percent (octet : N) : jsstring :=
  [37; hex_digit (octet / 16); hex_digit (octet mod 16)].

Definition escape_code_point (cp : N) : jsstring :=
  flat_map percent (utf8_octets cp).

(** [Encode(string, extraUnescaped)] of ECMAScript; [None] is the
    URIError raised at an unpaired surrogate. *)
Fixpoint encodeURI (s : jsstring) : option jsstring :=
  match s with
  | [] => Some []
  | c :: t =>
      if unescaped c then option_map (cons c) (encodeURI t)
      else if is_trailing_surrogate c then None
      else if is_leading_surrogate c then
        match t with
        | d :: t' =>
            if is_trailing_surrogate d
            then option_map (app (escape_code_point (surrogate_pair c d)))
                            (encodeURI t')
            else None
        | [] => None
        end
      else option_map (app (escape_code_point c)) (encodeURI t)
  end.

End Uri.

(** ** The component and its host *)

Inductive exn : Type :=
| URIError
| NotFoundError.

Inductive result (A : Type) : Type :=
| Ok (a : A)
| Throw (e : exn).
Arguments Ok {A} a.
Arguments Throw {A} e.

Record authorRow : Type := {
  author_tempId : Z;
  author_Name : jsstring;
  author_Pseudonyms__c : jsstring;
  author_Date_of_Birth__c : value
}.

Record bookRowDraft : Type := {
  book_tempId : Z;
  book_Name : jsstring;
  book_Book_Genre__c : jsstring;
  book_Author__c : value
}.

(** The fields of a [LibraryManager] instance. *)
Record component : Type := {
  isAddAuthorModalOpen : bool;
  authorsToCreate : list authorRow;
  isAddBookModalOpen : bool;
  booksToCreate : list bookRowDraft;
  genreOptions : list (jsstring * jsstring);
  defaultBookRecordTypeId : value;
  isDeleteAuthorModalOpen : bool;
  authorToDeleteId : value
}.

(** An anchor element. *)
Record element : Type := {
  node : nat;
  href : jsstring;
  target : jsstring;
  download : jsstring
}.

Record toast : Type := {
  title : jsstring;
  message : jsstring;
  variant : jsstring
}.

(** What a handler can read and change: the component, the children of
    [document.body], the clicks the host has received and the events the
    component has dispatched. *)
Record world : Type := {
  this : component;
  fresh_node : nat;
  body : list element;
  clicks : list element;
  dispatched : list toast
}.

(** No child of the body is the node the next [createElement] makes. *)
Definition fresh_node_unused (w : world) : bool :=
  forallb (fun c => negb (Nat.eqb (node c) (fresh_node w))) (body w).

Definition M (A : Type) : Type := world -> result (A * world).

Definition ret {A : Type} (a : A) : M A := fun w => Ok (a, w).

Definition bind {A B : Type} (m : M A) (k : A -> M B) : M B :=
  fun w =>
    match m w with
    | Ok (a, w') => k a w'
    | Throw e => Throw e
    end.

Definition throw {A : Type} (e : exn) : M A := fun _ => Throw e.

Notation "x <- m ;; k" := (bind m (fun x => k))
  (at level 61, m at next level, right associativity).
Notation "m ;;; k" := (bind m (fun _ => k))
  (at level 61, right associativity).

(** [document.createElement('a')] *)
Definition createElement_a : M element :=
  fun w =>
    Ok ({| node := fresh_node w; href := []; target := []; download := [] |},
        {| this := this w; fresh_node := S (fresh_node w); body := body w;
           clicks := clicks w; dispatched := dispatched w |}).

(** [document.body.appendChild(e)] *)
Definition appendChild (e : element) : M unit :=
  fun w =>
    Ok (tt, {| this := this w; fresh_node := fresh_node w;
               body := push (body w) e;
               clicks := clicks w; dispatched := dispatched w |}).

(** [e.click()]: the host receives the click on the anchor as it is. *)
Definition click (e : element) : M unit :=
  fun w =>
    Ok (tt, {| this := this w; fresh_node := fresh_node w; body := body w;
               clicks := push (clicks w) e; dispatched := dispatched w |}).

(** [document.body.removeChild(e)] *)
Definition removeChild (e : element) : M unit :=
  fun w =>
    if existsb (fun c => Nat.eqb (node c) (node e)) (body w)
    then Ok (tt, {| this := this w; fresh_node := fresh_node w;
                    body := filter (fun c => negb (Nat.eqb (node c) (node e)))
                                   (body w);
                    clicks := clicks w; dispatched := dispatched w |})
    else Throw NotFoundError.

(** [this.dispatchEvent(event)] *)
Definition dispatchEvent (event : toast) : M unit :=
  fun w =>
    Ok (tt, {| this := this w; fresh_node := fresh_node w; body := body w;
               clicks := clicks w; dispatched := push (dispatched w) event |}).

Definition call_encodeURI (s : jsstring) : M jsstring :=
  match Uri.encodeURI s with
  | Some u => ret u
  | None => throw URIError
  end.

Definition showToast (title message variant : jsstring) : M unit :=
  let event := {| title := title; message := message; variant := variant |} in
  dispatchEvent event.

Definition downloadCsv (csvData fileName : jsstring) : M unit :=
  hiddenElement <- createElement_a ;;
  let bom := [bom] in
  uri <- call_encodeURI (bom ++ csvData) ;;
  let hiddenElement :=
    {| node := node hiddenElement;
       href := lit "data:text/csv;charset=utf-8," ++ uri;
       target := lit "_blank";
       download := fileName |} in
  appendChild hiddenElement ;;;
  click hiddenElement ;;;
  removeChild hiddenElement.

(** [bookData] is what [getBookData()] of the child [c-book-list]
    returned. *)
Definition handleExportClick (bookData : list Book.t) : M unit :=
  if Nat.eqb (List.length bookData) 0 then
    showToast (lit "No Data") (lit "No data to export.") (lit "info")
  else
    let csvString := csvString bookData in
    downloadCsv csvString (lit "book-list.csv").

(** ** Reading a document back

    The notions the properties of the document are stated with: plain
    splitting at a separator, the splitting a CSV reader performs (a
    separator inside a quoted section does not split), and the reading of a
    quoted section, where a doubled quote stands for one quote. *)

Module Csv.

Definition contains (c : code_unit) (s : jsstring) : bool :=
  existsb (N.eqb c) s.

Definition count (c : code_unit) (s : jsstring) : nat :=
  List.length (filter (N.eqb c) s).

(** [s.split(sep)] for a separator of one code unit. *)
Fixpoint split (sep : code_unit) (s : jsstring) : list jsstring :=
  match s with
  | [] => [[]]
  | c :: t =>
      if c =? sep then [] :: split sep t
      else
        match split sep t with
        | piece :: rest => (c :: piece) :: rest
        | [] => [[c]]
        end
  end.

(** Splitting at the separators outside quoted sections; [quoted] tells
    whether the head of [s] lies inside one. *)
Fixpoint split_unquoted (sep : code_unit) (quoted : bool) (s : jsstring)
  : list jsstring :=
  match s with
  | [] => [[]]
  | c :: t =>
      if (c =? sep) && negb quoted then [] :: split_unquoted sep false t
      else
        match split_unquoted sep (if c =? quote then negb quoted else quoted) t
        with
        | piece :: rest => (c :: piece) :: rest
        | [] => [[c]]
        end
  end.

(** Whether a reader that starts [s] in state [quoted] meets no
    separator outside a quoted section, and the state it ends in. *)
Fixpoint scan (sep : code_unit) (quoted : bool) (s : jsstring)
  : option bool :=
  match s with
  | [] => Some quoted
  | c :: t =>
      if (c =? sep) && negb quoted then None
      else scan sep (if c =? quote then negb quoted else quoted) t
  end.

Definition records (text : jsstring) : list jsstring :=
  split_unquoted newline false text.

Definition fields (line : jsstring) : list jsstring :=
  split_unquoted comma false line.

(** Every quote of [s] is one of two adjacent quotes. *)
Fixpoint quotes_paired (s : jsstring) : bool :=
  match s with
  | [] => true
  | c :: t =>
      if c =? quote then
        match t with
        | d :: t' => (d =? quote) && quotes_paired t'
        | [] => false
        end
      else quotes_paired t
  end.

(** The text a quoted section stands for; [None] when it holds a quote
    that is not doubled. *)
Fixpoint undouble (s : jsstring) : option jsstring :=
  match s with
  | [] => Some []
  | c :: t =>
      if c =? quote then
        match t with
        | d :: t' =>
            if d =? quote then option_map (cons quote) (undouble t')
            else None
        | [] => None
        end
      else option_map (cons c) (undouble t)
  end.

(** The value a cell of the document stands for: a quoted cell is read
    through [undouble], any other cell is taken as it is. *)
Definition read_cell (cell : jsstring) : option jsstring :=
  match cell with
  | c :: t =>
      if c =? quote then
        match rev t with
        | d :: m => if d =? quote then undouble (rev m) else None
        | [] => None
        end
      else Some cell
  | [] => Some []
  end.

End Csv.

(** ** Reading a data URI back *)

Module UriReading.

Import Uri.

(** A string without unpaired surrogates. *)
Fixpoint well_formed (s : jsstring) : bool :=
  match s with
  | [] => true
  | c :: t =>
      if is_trailing_surrogate c then false
      else if is_leading_surrogate c then
        match t with
        | d :: t' => is_trailing_surrogate d && well_formed t'
        | [] => false
        end
      else well_formed t
  end.


Definition hex_value (c : code_unit) : N :=
  if (48 <=? c) && (c <=? 57) then c - 48
  else if (65 <=? c) && (c <=? 70) then c - 55
  else if (97 <=? c) && (c <=? 102) then c - 87
  else 0.

(** Percent-decoding: [%XY] is the octet with hexadecimal digits [X] and
    [Y], any other code unit is its own octet. *)
Fixpoint percent_decode (s : jsstring) : list N :=
  match s with
  | [] => []
  | c :: t =>
      if c =? 37 then
        match t with
        | h :: l :: t' => (hex_value h * 16 + hex_value l) :: percent_decode t'
        | _ => c :: percent_decode t
        end
      else c :: percent_decode t
  end.

End UriReading.

(** ** Sample inputs *)

Module Sample.

(** The record of the scenario: a name with a comma, a genre, no
    author. *)
Definition obrien (id : value) : Book.t :=
  {| Book.Id := id;
     Book.Name := VString (lit "O'Brien, J.");
     Book.Book_Genre__c := VString (lit "Sci-Fi");
     Book.Author__r := None |}.

(** A record whose name holds a newline. *)
Definition two_line_name : Book.t :=
  {| Book.Id := VString (lit "2");
     Book.Name := VString (lit "a" ++ [newline] ++ lit "b");
     Book.Book_Genre__c := VNull;
     Book.Author__r := Some {| Author.Name := VString (lit "C. D.") |} |}.

Definition closed_component : component :=
  {| isAddAuthorModalOpen := false;
     authorsToCreate := [];
     isAddBookModalOpen := false;
     booksToCreate := [];
     genreOptions := [];
     defaultBookRecordTypeId := VUndefined;
     isDeleteAuthorModalOpen := false;
     authorToDeleteId := VNull |}.

Definition page : world :=
  {| this := closed_component;
     fresh_node := 1;
     body := [{| node := 0; href := lit "/home"; target := [];
                 download := [] |}];
     clicks := [];
     dispatched := [] |}.

End Sample.

(** ** The forms of the component

    The handlers of the three modals.  An async handler is given in two
    parts: what it does up to its [await], and what it does once the Apex
    call has settled; the second part runs on the component as it is
    then. *)

(** [!!v] *)
Definition truthy (v : value) : bool :=
  match v with
  | VUndefined | VNull => false
  | VBoolean b => b
  | VString [] => false
  | VString (_ :: _) => true
  end.

(** [s === ''] *)
Definition is_empty (s : jsstring) : bool :=
  match s with
  | [] => true
  | _ :: _ => false
  end.

Fixpoint trimStart (s : jsstring) : jsstring :=
  match s with
  | [] => []
  | c :: t => if is_js_whitespace c then trimStart t else s
  end.

Definition trimEnd (s : jsstring) : jsstring := rev (trimStart (rev s)).

(** [s.trim()]: white space and line terminators are removed from both
    ends. *)
Definition trim (s : jsstring) : jsstring := trimEnd (trimStart s).

(** What the handlers read of an event: [event.target.dataset.id],
    [event.target.name], [event.target.value] and
    [event.detail.recordId]. *)
Record inputEvent : Type := {
  target_dataset_id : jsstring;
  target_name : jsstring;
  target_value : value;
  detail_recordId : value
}.

(** A draft row without its [tempId], as sent to Apex. *)
Record cleanAuthor : Type := {
  clean_author_Name : jsstring;
  clean_author_Pseudonyms__c : jsstring;
  clean_author_Date_of_Birth__c : value
}.

Record cleanBook : Type := {
  clean_book_Name : jsstring;
  clean_book_Book_Genre__c : jsstring;
  clean_book_Author__c : value
}.

(** An async handler at its first suspension: it has returned, or it
    awaits the Apex call made with [argument]. *)
Inductive awaited (A : Type) : Type :=
| Returned
| Awaits (argument : A).
Arguments Returned {A}.
Arguments Awaits {A} argument.


Definition get_this : M component := fun w => Ok (this w, w).

(** An assignment to fields of [this]. *)
Definition assign_this (f : component -> component) : M unit :=
  fun w =>
    Ok (tt, {| this := f (this w); fresh_node := fresh_node w; body := body w;
               clicks := clicks w; dispatched := dispatched w |}).

Definition set_isAddAuthorModalOpen (b : bool) (c : component) : component :=
  {| isAddAuthorModalOpen := b;
     authorsToCreate := authorsToCreate c;
     isAddBookModalOpen := isAddBookModalOpen c;
     booksToCreate := booksToCreate c;
     genreOptions := genreOptions c;
     defaultBookRecordTypeId := defaultBookRecordTypeId c;
     isDeleteAuthorModalOpen := isDeleteAuthorModalOpen c;
     authorToDeleteId := authorToDeleteId c |}.

Definition set_authorsToCreate (l : list authorRow) (c : component)
  : component :=
  {| isAddAuthorModalOpen := isAddAuthorModalOpen c;
     authorsToCreate := l;
     isAddBookModalOpen := isAddBookModalOpen c;
     booksToCreate := booksToCreate c;
     genreOptions := genreOptions c;
     defaultBookRecordTypeId := defaultBookRecordTypeId c;
     isDeleteAuthorModalOpen := isDeleteAuthorModalOpen c;
     authorToDeleteId := authorToDeleteId c |}.

Definition set_isAddBookModalOpen (b : bool) (c : component) : component :=
  {| isAddAuthorModalOpen := isAddAuthorModalOpen c;
     authorsToCreate := authorsToCreate c;
     isAddBookModalOpen := b;
     booksToCreate := booksToCreate c;
     genreOptions := genreOptions c;
     defaultBookRecordTypeId := defaultBookRecordTypeId c;
     isDeleteAuthorModalOpen := isDeleteAuthorModalOpen c;
     authorToDeleteId := authorToDeleteId c |}.

Definition set_booksToCreate (l : list bookRowDraft) (c : component)
  : component :=
  {| isAddAuthorModalOpen := isAddAuthorModalOpen c;
     authorsToCreate := authorsToCreate c;
     isAddBookModalOpen := isAddBookModalOpen c;
     booksToCreate := l;
     genreOptions := genreOptions c;
     defaultBookRecordTypeId := defaultBookRecordTypeId c;
     isDeleteAuthorModalOpen := isDeleteAuthorModalOpen c;
     authorToDeleteId := authorToDeleteId c |}.

Definition set_isDeleteAuthorModalOpen (b : bool) (c : component)
  : component :=
  {| isAddAuthorModalOpen := isAddAuthorModalOpen c;
     authorsToCreate := authorsToCreate c;
     isAddBookModalOpen := isAddBookModalOpen c;
     booksToCreate := booksToCreate c;
     genreOptions := genreOptions c;
     defaultBookRecordTypeId := defaultBookRecordTypeId c;
     isDeleteAuthorModalOpen := b;
     authorToDeleteId := authorToDeleteId c |}.

Definition set_authorToDeleteId (v : value) (c : component) : component :=
  {| isAddAuthorModalOpen := isAddAuthorModalOpen c;
     authorsToCreate := authorsToCreate c;
     isAddBookModalOpen := isAddBookModalOpen c;
     booksToCreate := booksToCreate c;
     genreOptions := genreOptions c;
     defaultBookRecordTypeId := defaultBookRecordTypeId c;
     isDeleteAuthorModalOpen := isDeleteAuthorModalOpen c;
     authorToDeleteId := v |}.

(** The getter [isDeleteButtonDisabled]. *)
Definition isDeleteButtonDisabled (c : component) : bool :=
  negb (truthy (authorToDeleteId c)).

Definition handleModalClose : M unit :=
  assign_this (set_isAddAuthorModalOpen false) ;;;
  assign_this (set_authorsToCreate []) ;;;
  assign_this (set_isAddBookModalOpen false) ;;;
  assign_this (set_booksToCreate []) ;;;
  assign_this (set_isDeleteAuthorModalOpen false) ;;;
  assign_this (set_authorToDeleteId VNull).

(** *** Add Author *)

(** [now] is what [new Date().getTime()] returns at the call. *)
Definition handleAddAuthorRow (now : Z) : M unit :=
  let newId := now in
  assign_this (fun c =>
    set_authorsToCreate
      (push (authorsToCreate c)
            {| author_tempId := newId;
               author_Name := [];
               author_Pseudonyms__c := [];
               author_Date_of_Birth__c := VNull |}) c).

Definition handleAddAuthor (now : Z) : M unit :=
  assign_this (set_isAddAuthorModalOpen true) ;;;
  c <- get_this ;;
  if Nat.eqb (List.length (authorsToCreate c)) 0
  then handleAddAuthorRow now
  else ret tt.

Definition authorInvalid (author : authorRow) : bool :=
  negb (truthy (VString (author_Name author))) ||
  is_empty (trim (author_Name author)).

Definition handleSaveAuthors_begin : M (awaited (list cleanAuthor)) :=
  c <- get_this ;;
  let hasInvalidRow :=
    fold_left (fun hasInvalidRow author =>
                 if authorInvalid author then true else hasInvalidRow)
              (authorsToCreate c) false in
  if hasInvalidRow then
    showToast (lit "Validation Error") (lit "Author Name is required.")
              (lit "error") ;;;
    ret Returned
  else
    let authorsForApex :=
      map (fun author =>
             {| clean_author_Name := author_Name author;
                clean_author_Pseudonyms__c := author_Pseudonyms__c author;
                clean_author_Date_of_Birth__c :=
                  author_Date_of_Birth__c author |})
          (authorsToCreate c) in
    ret (Awaits authorsForApex).


(** *** Add Book *)

Definition handleAddBookRow (now : Z) : M unit :=
  let newId := now in
  assign_this (fun c =>
    set_booksToCreate
      (push (booksToCreate c)
            {| book_tempId := newId;
               book_Name := [];
               book_Book_Genre__c := [];
               book_Author__c := VNull |}) c).

Definition handleAddBook (now : Z) : M unit :=
  assign_this (set_isAddBookModalOpen true) ;;;
  c <- get_this ;;
  if Nat.eqb (List.length (booksToCreate c)) 0
  then handleAddBookRow now
  else ret tt.

Definition bookInvalid (book : bookRowDraft) : bool :=
  negb (truthy (VString (book_Name book))) ||
  is_empty (trim (book_Name book)) ||
  negb (truthy (book_Author__c book)).

Definition handleSaveBooks_begin : M (awaited (list cleanBook)) :=
  c <- get_this ;;
  let hasInvalidRow :=
    fold_left (fun hasInvalidRow book =>
                 if bookInvalid book then true else hasInvalidRow)
              (booksToCreate c) false in
  if hasInvalidRow then
    showToast (lit "Validation Error")
              (lit "Book Name and Author are required.") (lit "error") ;;;
    ret Returned
  else
    let booksForApex :=
      map (fun book =>
             {| clean_book_Name := book_Name book;
                clean_book_Book_Genre__c := book_Book_Genre__c book;
                clean_book_Author__c := book_Author__c book |})
          (booksToCreate c) in
    ret (Awaits booksForApex).


(** *** Delete Author *)

Definition handleDeleteAuthor : M unit :=
  assign_this (set_isDeleteAuthorModalOpen true).

Definition handleAuthorToDeleteChange (event : inputEvent) : M unit :=
  assign_this (set_authorToDeleteId (detail_recordId event)).

Definition handleConfirmDeleteAuthor_begin : M (awaited value) :=
  c <- get_this ;;
  if negb (truthy (authorToDeleteId c)) then
    showToast (lit "Error") (lit "Please select an author to delete.")
              (lit "error") ;;;
    ret Returned
  else
    ret (Awaits (authorToDeleteId c)).


(** *** Removing a row

    The row id of the event is a string and [tempId] a number; they are
    compared with the loose [!=].  The comparison of a number with a string
    is the parameter [loosely_equals]. *)

Section RowRemoval.

Variable loosely_equals : Z -> jsstring -> bool.

Definition handleRemoveAuthorRow (event : inputEvent) (now : Z) : M unit :=
  let rowIdToRemove := target_dataset_id event in
  assign_this (fun c =>
    set_authorsToCreate
      (filter (fun author =>
                 negb (loosely_equals (author_tempId author) rowIdToRemove))
              (authorsToCreate c)) c) ;;;
  c <- get_this ;;
  if Nat.eqb (List.length (authorsToCreate c)) 0
  then handleAddAuthorRow now
  else ret tt.

Definition handleRemoveBookRow (event : inputEvent) (now : Z) : M unit :=
  let rowIdToRemove := target_dataset_id event in
  assign_this (fun c =>
    set_booksToCreate
      (filter (fun book =>
                 negb (loosely_equals (book_tempId book) rowIdToRemove))
              (booksToCreate c)) c) ;;;
  c <- get_this ;;
  if Nat.eqb (List.length (booksToCreate c)) 0
  then handleAddBookRow now
  else ret tt.

End RowRemoval.

(** ** Texts fit for export *)

(** The text a reader finds in the cell of a value: the text of the value,
    and the empty text for null and undefined. *)
Definition cell_text (v : value) : jsstring :=
  match v with
  | VUndefined | VNull => []
  | VBoolean true => lit "true"
  | VBoolean false => lit "false"
  | VString s => s
  end.

(** The three values [handleExportClick] reads from a record. *)
Definition book_values (book : Book.t) : list value :=
  [Book.Name book;
   match Book.Author__r book with
   | Some a => Author.Name a
   | None => VString []
   end;
   Book.Book_Genre__c book].

(** Every node of the body was made by an earlier [createElement]. *)
Definition nodes_allocated (w : world) : bool :=
  forallb (fun c => Nat.ltb (node c) (fresh_node w)) (body w).



(** ** Sample form states *)

Module SampleForm.

(** A sample comparison of a number with a string, for the examples: it
    holds when the string is a non-empty run of decimal digits that
    denotes the number.  The loose equality of JavaScript holds in more
    cases (signs, white space around the digits, other notations, the
    empty string against zero). *)
Fixpoint digits_value (acc : Z) (s : jsstring) : option Z :=
  match s with
  | [] => Some acc
  | c :: t =>
      if (48 <=? c) && (c <=? 57)
      then digits_value (10 * acc + Z.of_N (c - 48))%Z t
      else None
  end.

Definition decimal_equals (n : Z) (s : jsstring) : bool :=
  match s with
  | [] => false
  | _ :: _ =>
      match digits_value 0%Z s with
      | Some m => Z.eqb n m
      | None => false
      end
  end.

Definition row (id : Z) (name : string) : authorRow :=
  {| author_tempId := id;
     author_Name := lit name;
     author_Pseudonyms__c := [];
     author_Date_of_Birth__c := VNull |}.

Definition draft (id : Z) (name : string) (author : value) : bookRowDraft :=
  {| book_tempId := id;
     book_Name := lit name;
     book_Book_Genre__c := lit "Novel";
     book_Author__c := author |}.

Definition editing : component :=
  {| isAddAuthorModalOpen := true;
     authorsToCreate := [row 17 "Ann Lee"; row 18 " "; row 18 "Bo"];
     isAddBookModalOpen := false;
     booksToCreate := [draft 5 "Dune" VNull];
     genreOptions := [(lit "Novel", lit "Novel")];
     defaultBookRecordTypeId := VString (lit "012");
     isDeleteAuthorModalOpen := false;
     authorToDeleteId := VString (lit "a01") |}.

Definition with_component (c : component) : world :=
  {| this := c;
     fresh_node := fresh_node Sample.page;
     body := body Sample.page;
     clicks := [];
     dispatched := [] |}.

Definition click_on (id : string) : inputEvent :=
  {| target_dataset_id := lit id;
     target_name := [];
     target_value := VUndefined;
     detail_recordId := VUndefined |}.


End SampleForm.

(** ** Reading the address of the anchor

    What a reader of a data URI takes as the data: the address ends at the
    first number sign, where the fragment begins; the data is what follows
    the first comma, percent-decoded. *)

Module DataUrl.

Definition number_sign : code_unit := 35.

Fixpoint before_fragment (s : jsstring) : jsstring :=
  match s with
  | [] => []
  | c :: t => if c =? number_sign then [] else c :: before_fragment t
  end.

Fixpoint after_comma (s : jsstring) : jsstring :=
  match s with
  | [] => []
  | c :: t => if c =? comma then t else after_comma t
  end.

Definition body (address : jsstring) : list N :=
  UriReading.percent_decode (after_comma (before_fragment address)).


End DataUrl.

(** * Properties *)

(** ** The cell escaper *)

Section CellEscaper.

Import Csv.

Local Abbreviation dq := (replace_quotes [quote; quote]).

Lemma search_from_sign (p : code_unit -> bool) (s : jsstring) (from : Z) :
  (0 <= from)%Z ->
  (0 <=? search_from p s from)%Z = existsb p s.
Proof.
  revert from; induction s as [|c t IH]; intros from Hfrom; simpl.
  - reflexivity.
  - destruct (p c); simpl.
    + apply Z.leb_le; exact Hfrom.
    + apply IH; lia.
Qed.

Lemma search_sign (p : code_unit -> bool) (s : jsstring) :
  (0 <=? search p s)%Z = existsb p s.
Proof. unfold search; apply search_from_sign; lia. Qed.

Lemma replace_quotes_app (r a b : jsstring) :
  replace_quotes r (a ++ b) = replace_quotes r a ++ replace_quotes r b.
Proof.
  induction a as [|c t IH]; simpl; [reflexivity|].
  destruct (c =? quote); rewrite IH.
  - now rewrite app_assoc.
  - reflexivity.
Qed.

Lemma doubled_needs_wrap (s : jsstring) :
  existsb needs_wrap (dq s) = existsb needs_wrap s.
Proof.
  induction s as [|c t IH]; simpl; [reflexivity|].
  destruct (c =? quote) eqn:E; simpl.
  - apply N.eqb_eq in E; subst c; reflexivity.
  - now rewrite IH.
Qed.

Lemma doubled_without_quote (s : jsstring) :
  contains quote s = false -> dq s = s.
Proof.
  unfold contains.
  induction s as [|c t IH]; cbn [existsb replace_quotes]; [reflexivity|].
  rewrite (N.eqb_sym quote c).
  destruct (c =? quote); cbn [orb]; [discriminate|].
  intros H; now rewrite IH.
Qed.

Lemma doubled_paired (s : jsstring) : quotes_paired (dq s) = true.
Proof.
  induction s as [|c t IH]; simpl; [reflexivity|].
  destruct (c =? quote) eqn:E; simpl.
  - exact IH.
  - now rewrite E.
Qed.

Lemma undouble_doubled (s : jsstring) : undouble (dq s) = Some s.
Proof.
  induction s as [|c t IH]; simpl; [reflexivity|].
  destruct (c =? quote) eqn:E; simpl.
  - rewrite IH; simpl.
    apply N.eqb_eq in E; now subst c.
  - rewrite E; now rewrite IH.
Qed.

Lemma count_doubled (s : jsstring) :
  count quote (dq s) = (2 * count quote s)%nat.
Proof.
  unfold count.
  induction s as [|c t IH]; cbn [replace_quotes filter]; [reflexivity|].
  destruct (c =? quote) eqn:E.
  - rewrite (N.eqb_sym quote c), E.
    cbn [app filter]. rewrite (N.eqb_refl quote).
    cbn [List.length]. rewrite IH. lia.
  - cbn [filter]. rewrite (N.eqb_sym quote c), E. exact IH.
Qed.

(** What [escapeText] returns, by whether a code unit of the text
    matches the search pattern. *)
Lemma escapeText_cases (s : jsstring) :
  escapeText s =
    if existsb needs_wrap s then [quote] ++ dq s ++ [quote] else dq s.
Proof.
  unfold escapeText.
  now rewrite search_sign, doubled_needs_wrap.
Qed.

Lemma contains_needs_wrap (c : code_unit) (s : jsstring) :
  needs_wrap c = true -> contains c s = true -> existsb needs_wrap s = true.
Proof.
  intros Hc H. apply existsb_exists in H as [x [Hin Hx]].
  apply N.eqb_eq in Hx; subst x.
  apply existsb_exists; now exists c.
Qed.

Lemma no_needs_wrap (s : jsstring) :
  contains comma s = false -> contains quote s = false ->
  contains newline s = false -> existsb is_js_whitespace s = false ->
  existsb needs_wrap s = false.
Proof.
  unfold contains.
  induction s as [|c t IH]; cbn [existsb]; [reflexivity|].
  intros H1 H2 H3 H4.
  apply orb_false_iff in H1 as [H1 H1'], H2 as [H2 H2'],
        H3 as [H3 H3'], H4 as [H4 H4'].
  rewrite IH by assumption.
  unfold needs_wrap.
  rewrite (N.eqb_sym c quote), (N.eqb_sym c comma), (N.eqb_sym c newline).
  now rewrite H1, H2, H3, H4.
Qed.

(** C1: the escaper returns the two-quote string for null and for
    undefined. *)
Theorem formatCsvCell_null_undefined :
  formatCsvCell VNull = [quote; quote] /\
  formatCsvCell VUndefined = [quote; quote].
Proof. split; reflexivity. Qed.

(** C5: on a string with no comma, no quote, no newline and no
    whitespace character the escaper is the identity. *)
Theorem formatCsvCell_plain_identity (s : jsstring) :
  contains comma s = false ->
  contains quote s = false ->
  contains newline s = false ->
  existsb is_js_whitespace s = false ->
  formatCsvCell (VString s) = s.
Proof.
  intros Hc Hq Hn Hw; simpl.
  rewrite escapeText_cases, (no_needs_wrap s Hc Hq Hn Hw).
  now apply doubled_without_quote.
Qed.

Lemma formatCsvCell_plain_identity_witness :
  contains comma (lit "Sci-Fi") = false /\
  formatCsvCell (VString (lit "Sci-Fi")) = lit "Sci-Fi".
Proof.
  split; [reflexivity|].
  apply (formatCsvCell_plain_identity (lit "Sci-Fi")); reflexivity.
Defined.

(** C3: for a string that contains a comma, the escaped cell is a quote,
    a middle part and a quote; every quote of the middle part is one of a
    doubled pair, and the middle part reads back as the string. *)
Theorem formatCsvCell_comma_wrapped (s : jsstring) :
  contains comma s = true ->
  exists mid : jsstring,
    formatCsvCell (VString s) = [quote] ++ mid ++ [quote] /\
    quotes_paired mid = true /\
    undouble mid = Some s.
Proof.
  intros Hc. exists (dq s); simpl.
  rewrite escapeText_cases, (contains_needs_wrap comma s eq_refl Hc).
  repeat split; [apply doubled_paired | apply undouble_doubled].
Qed.

Lemma formatCsvCell_comma_wrapped_witness :
  contains comma (lit "O'Brien, J.") = true /\
  exists mid : jsstring,
    formatCsvCell (VString (lit "O'Brien, J.")) = [quote] ++ mid ++ [quote] /\
    quotes_paired mid = true /\
    undouble mid = Some (lit "O'Brien, J.").
Proof.
  split; [reflexivity|].
  apply (formatCsvCell_comma_wrapped (lit "O'Brien, J.")); reflexivity.
Defined.

(** C4: for a string that contains a quote, every occurrence of the
    quote is doubled in the escaped cell: around an occurrence the cell
    is the doubled text before it, two quotes and the doubled text after
    it, between the two delimiters; the text between the delimiters has
    twice the quotes of the string and reads back as the string. *)
Theorem formatCsvCell_quotes_doubled (s : jsstring) :
  contains quote s = true ->
  (forall pre post : jsstring,
      s = pre ++ quote :: post ->
      formatCsvCell (VString s) =
        [quote] ++ (replace_quotes [quote; quote] pre ++ [quote; quote] ++
                    replace_quotes [quote; quote] post) ++ [quote]) /\
  (exists mid : jsstring,
      formatCsvCell (VString s) = [quote] ++ mid ++ [quote] /\
      count quote mid = (2 * count quote s)%nat /\
      undouble mid = Some s).
Proof.
  intros Hq.
  assert (E : formatCsvCell (VString s) = [quote] ++ dq s ++ [quote]).
  { simpl. rewrite escapeText_cases.
    now rewrite (contains_needs_wrap quote s eq_refl Hq). }
  split.
  - intros pre post ->. rewrite E.
    rewrite replace_quotes_app. reflexivity.
  - exists (dq s). repeat split;
      [exact E | apply count_doubled | apply undouble_doubled].
Qed.

Lemma formatCsvCell_quotes_doubled_witness :
  contains quote (lit "a" ++ [quote] ++ lit "b") = true /\
  formatCsvCell (VString (lit "a" ++ [quote] ++ lit "b")) =
    [quote] ++ (lit "a" ++ [quote; quote] ++ lit "b") ++ [quote].
Proof.
  split; [reflexivity|].
  exact (proj1 (formatCsvCell_quotes_doubled
                  (lit "a" ++ [quote] ++ lit "b") eq_refl)
               (lit "a") (lit "b") eq_refl).
Defined.

End CellEscaper.

(** ** The document *)

Section Document.

Import Csv.

Local Abbreviation dq := (replace_quotes [quote; quote]).
Local Abbreviation line_of := (fun book => join [comma] (bookRow book)).

Lemma fold_left_push {A B : Type} (f : A -> B) (l : list A) (acc : list B) :
  fold_left (fun acc x => push acc (f x)) l acc = acc ++ map f l.
Proof.
  revert acc; induction l as [|x t IH]; intros acc; simpl.
  - now rewrite app_nil_r.
  - rewrite IH. unfold push. now rewrite <- app_assoc.
Qed.

(** The loop of [handleExportClick] leaves the header line followed by
    one line per record, in input order. *)
Lemma csvLines_map (bookData : list Book.t) :
  csvLines bookData = join [comma] headers :: map line_of bookData.
Proof. unfold csvLines. now rewrite fold_left_push. Qed.

Lemma split_nonempty (sep : code_unit) (s : jsstring) : split sep s <> [].
Proof.
  destruct s as [|c t]; simpl; [discriminate|].
  destruct (c =? sep); [discriminate|].
  destruct (split sep t); discriminate.
Qed.

Lemma split_without_sep (sep : code_unit) (p rest : jsstring) :
  contains sep p = false ->
  split sep (p ++ rest) =
    match split sep rest with
    | piece :: others => (p ++ piece) :: others
    | [] => [p]
    end.
Proof.
  unfold contains.
  induction p as [|c t IH]; cbn [existsb app]; intros H.
  - destruct (split sep rest) eqn:E; [now apply split_nonempty in E|].
    reflexivity.
  - apply orb_false_iff in H as [Hc Ht].
    cbn [split]. rewrite (N.eqb_sym c sep), Hc, (IH Ht).
    destruct (split sep rest); reflexivity.
Qed.

Lemma split_join (sep : code_unit) (pieces : list jsstring) :
  pieces <> [] ->
  Forall (fun p => contains sep p = false) pieces ->
  split sep (join [sep] pieces) = pieces.
Proof.
  induction pieces as [|x t IH]; intros Hne Hall; [contradiction|].
  inversion Hall as [|? ? Hx Ht]; subst.
  destruct t as [|y t'].
  - cbn [join]. rewrite <- (app_nil_r x) at 1.
    rewrite (split_without_sep sep x [] Hx). cbn [split].
    now rewrite app_nil_r.
  - change (join [sep] (x :: y :: t'))
      with (x ++ [sep] ++ join [sep] (y :: t')).
    rewrite (split_without_sep sep x _ Hx).
    cbn [app split]. rewrite N.eqb_refl.
    rewrite IH by (discriminate || assumption).
    now rewrite app_nil_r.
Qed.

Lemma split_unquoted_nonempty (sep : code_unit) (q : bool) (s : jsstring) :
  split_unquoted sep q s <> [].
Proof.
  destruct s as [|c t]; simpl; [discriminate|].
  destruct ((c =? sep) && negb q); [discriminate|].
  destruct (split_unquoted sep _ t); discriminate.
Qed.

Lemma split_unquoted_scanned (sep : code_unit) (p rest : jsstring) :
  forall q q' : bool,
    scan sep q p = Some q' ->
    split_unquoted sep q (p ++ rest) =
      match split_unquoted sep q' rest with
      | piece :: others => (p ++ piece) :: others
      | [] => [p]
      end.
Proof.
  induction p as [|c t IH]; cbn [scan app]; intros q q' H.
  - injection H as <-.
    destruct (split_unquoted sep q rest) eqn:E;
      [now apply split_unquoted_nonempty in E | reflexivity].
  - cbn [split_unquoted].
    destruct ((c =? sep) && negb q); [discriminate|].
    rewrite (IH _ _ H).
    destruct (split_unquoted sep q' rest); reflexivity.
Qed.

Lemma split_unquoted_join (sep : code_unit) (pieces : list jsstring) :
  pieces <> [] ->
  Forall (fun p => scan sep false p = Some false) pieces ->
  split_unquoted sep false (join [sep] pieces) = pieces.
Proof.
  induction pieces as [|x t IH]; intros Hne Hall; [contradiction|].
  inversion Hall as [|? ? Hx Ht]; subst.
  destruct t as [|y t'].
  - cbn [join]. rewrite <- (app_nil_r x) at 1.
    rewrite (split_unquoted_scanned sep x [] _ _ Hx). cbn [split_unquoted].
    now rewrite app_nil_r.
  - change (join [sep] (x :: y :: t'))
      with (x ++ [sep] ++ join [sep] (y :: t')).
    rewrite (split_unquoted_scanned sep x _ _ _ Hx).
    cbn [app split_unquoted]. rewrite N.eqb_refl. cbn [negb andb].
    rewrite IH by (discriminate || assumption).
    now rewrite app_nil_r.
Qed.

Lemma scan_app (sep : code_unit) (a b : jsstring) :
  forall q : bool,
    scan sep q (a ++ b) =
      match scan sep q a with
      | Some q' => scan sep q' b
      | None => None
      end.
Proof.
  induction a as [|c t IH]; cbn [scan app]; intros q; [reflexivity|].
  destruct ((c =? sep) && negb q); [reflexivity | apply IH].
Qed.

Lemma scan_plain (sep : code_unit) (s : jsstring) (q : bool) :
  contains sep s = false -> contains quote s = false ->
  scan sep q s = Some q.
Proof.
  unfold contains.
  induction s as [|c t IH]; cbn [existsb scan]; intros Hs Hq; [reflexivity|].
  apply orb_false_iff in Hs as [Hs Hs'], Hq as [Hq Hq'].
  rewrite (N.eqb_sym c sep), Hs, (N.eqb_sym c quote), Hq.
  cbn [andb]. now apply IH.
Qed.

Lemma scan_doubled (sep : code_unit) (s : jsstring) :
  sep <> quote -> scan sep true (dq s) = Some true.
Proof.
  intros Hsep. apply N.eqb_neq in Hsep. rewrite N.eqb_sym in Hsep.
  induction s as [|c t IH]; cbn [replace_quotes scan]; [reflexivity|].
  destruct (c =? quote) eqn:E.
  - cbn [app scan]. rewrite Hsep, N.eqb_refl. cbn [andb negb]. exact IH.
  - cbn [scan]. rewrite E. cbn [negb]. rewrite andb_false_r. exact IH.
Qed.

(** A cell never shows a separator, comma or newline, outside its
    quotes, and closes the quotes it opens. *)
Lemma escapeText_scanned (sep : code_unit) (s : jsstring) :
  needs_wrap sep = true -> sep <> quote ->
  scan sep false (escapeText s) = Some false.
Proof.
  intros Hw Hsep. rewrite escapeText_cases.
  destruct (existsb needs_wrap s) eqn:E.
  - assert (Hq : (quote =? sep) = false)
      by (rewrite N.eqb_sym; now apply N.eqb_neq).
    cbn [app scan]. rewrite Hq, N.eqb_refl. cbn [andb negb].
    rewrite scan_app, (scan_doubled sep s Hsep).
    cbn [scan]. now rewrite Hq, N.eqb_refl.
  - assert (Hno : forall c, needs_wrap c = true -> contains c s = false).
    { intros c Hc. destruct (contains c s) eqn:Ec; [|reflexivity].
      now rewrite (contains_needs_wrap c s Hc Ec) in E. }
    rewrite (doubled_without_quote s (Hno quote eq_refl)).
    apply scan_plain; [now apply Hno | now apply Hno].
Qed.

Lemma formatCsvCell_scanned (sep : code_unit) (v : value) :
  needs_wrap sep = true -> sep <> quote ->
  scan sep false (formatCsvCell v) = Some false.
Proof.
  intros Hw Hsep.
  destruct v as [| |[|]|s]; cbn [formatCsvCell];
    try (now apply escapeText_scanned).
  all: assert (Hq : (quote =? sep) = false)
      by (rewrite N.eqb_sym; now apply N.eqb_neq).
  all: cbn [scan]; rewrite Hq, N.eqb_refl; reflexivity.
Qed.

Lemma bookRow_cells (book : Book.t) :
  bookRow book =
    [formatCsvCell (Book.Name book);
     formatCsvCell (match Book.Author__r book with
                    | Some a => Author.Name a
                    | None => VString []
                    end);
     formatCsvCell (Book.Book_Genre__c book)].
Proof. reflexivity. Qed.

Lemma bookRow_scanned (sep : code_unit) (book : Book.t) :
  needs_wrap sep = true -> sep <> quote ->
  Forall (fun cell => scan sep false cell = Some false) (bookRow book).
Proof.
  intros Hw Hsep. rewrite bookRow_cells.
  repeat constructor; now apply formatCsvCell_scanned.
Qed.

(** A reader finds in the line of a record the cells of its row. *)
Lemma fields_line (book : Book.t) : fields (line_of book) = bookRow book.
Proof.
  unfold fields. apply split_unquoted_join.
  - rewrite bookRow_cells; discriminate.
  - now apply bookRow_scanned.
Qed.

Lemma join_scanned (sep inner : code_unit) (cells : list jsstring) :
  inner <> sep -> inner <> quote ->
  Forall (fun cell => scan sep false cell = Some false) cells ->
  scan sep false (join [inner] cells) = Some false.
Proof.
  intros Hsep Hq Hall.
  apply N.eqb_neq in Hsep, Hq.
  induction Hall as [|x t Hx Ht IH]; [reflexivity|].
  destruct t as [|y t']; [exact Hx|].
  change (join [inner] (x :: y :: t'))
    with (x ++ [inner] ++ join [inner] (y :: t')).
  rewrite scan_app, Hx. cbn [app scan].
  rewrite Hsep, Hq. exact IH.
Qed.

Lemma line_scanned (book : Book.t) :
  scan newline false (join [comma] (bookRow book)) = Some false.
Proof.
  apply join_scanned; [discriminate | discriminate |].
  apply bookRow_scanned; [reflexivity | discriminate].
Qed.

(** A reader finds in the document the header line and one line per
    record, in input order, whatever the cells hold. *)
Lemma records_csvString (bookData : list Book.t) :
  records (csvString bookData) =
    join [comma] headers :: map line_of bookData.
Proof.
  unfold records, csvString. rewrite csvLines_map.
  apply split_unquoted_join; [discriminate|].
  constructor; [reflexivity|].
  apply Forall_forall. intros line Hin.
  apply in_map_iff in Hin as [book [<- _]].
  apply line_scanned.
Qed.

End Document.

Section DocumentClaims.

Import Csv.

Lemma contains_app (c : code_unit) (a b : jsstring) :
  contains c (a ++ b) = contains c a || contains c b.
Proof. unfold contains. apply existsb_app. Qed.

Lemma contains_join (c inner : code_unit) (cells : list jsstring) :
  c <> inner ->
  Forall (fun cell => contains c cell = false) cells ->
  contains c (join [inner] cells) = false.
Proof.
  intros Hc Hall. apply N.eqb_neq in Hc.
  induction Hall as [|x t Hx Ht IH]; [reflexivity|].
  destruct t as [|y t']; [exact Hx|].
  change (join [inner] (x :: y :: t'))
    with (x ++ [inner] ++ join [inner] (y :: t')).
  rewrite !contains_app, Hx, IH.
  unfold contains at 1. cbn [existsb]. now rewrite Hc.
Qed.

Lemma handleExportClick_nonempty (bookData : list Book.t) :
  bookData <> [] ->
  handleExportClick bookData =
    downloadCsv (csvString bookData) (lit "book-list.csv").
Proof.
  destruct bookData as [|book t]; [contradiction | reflexivity].
Qed.

(** The header of every document is the fixed one: no input makes the
    builder emit another header line. *)
Lemma csvString_header (bookData : list Book.t) :
  exists rest : jsstring,
    csvString bookData = lit "Book Name,Author,Genre" ++ rest.
Proof.
  unfold csvString. rewrite csvLines_map.
  destruct bookData as [|book t].
  - exists []. reflexivity.
  - exists ([newline] ++ join [newline] (map (fun b => join [comma] (bookRow b))
                                          (book :: t))).
    reflexivity.
Qed.

(** C2, as stated: the builder has no column parameter, and on the record
    of the scenario it does not produce the two-column text. *)
Lemma csvString_obrien_not_two_columns :
  csvString [Sample.obrien VUndefined] <>
    lit "Name,Genre" ++ [newline] ++
    [quote] ++ lit "O'Brien, J." ++ [quote] ++ lit ",Sci-Fi".
Proof. vm_compute. discriminate. Qed.

(** C2, amended: on the single record with name O'Brien, J. and genre
    Sci-Fi, and no author, the builder produces the header of its three
    fixed columns and one line whose name cell is wrapped in quotes,
    whose author cell is empty and whose genre cell is not quoted. *)
Theorem csvString_obrien (id : value) :
  csvString [Sample.obrien id] =
    lit "Book Name,Author,Genre" ++ [newline] ++
    [quote] ++ lit "O'Brien, J." ++ [quote] ++ lit ",,Sci-Fi" /\
  bookRow (Sample.obrien id) =
    [[quote] ++ lit "O'Brien, J." ++ [quote]; []; lit "Sci-Fi"].
Proof. split; reflexivity. Qed.

(** C7, as stated: a cell that holds a newline is written with the
    newline inside its quotes, and splitting the text at every newline
    then gives more than one line for the record. *)
Lemma csvString_newline_cell_three_lines :
  List.length (split newline (csvString [Sample.two_line_name])) <>
    (List.length [Sample.two_line_name] + 1)%nat.
Proof. vm_compute. discriminate. Qed.

(** C7, amended: for a non-empty record sequence none of whose cells
    holds a newline, the text handed to the delivery step, split at the
    newlines, is the header line followed by one line per record in input
    order: the number of records plus one. *)
Theorem csvString_line_count (bookData : list Book.t) :
  bookData <> [] ->
  (forall book cell,
      In book bookData -> In cell (bookRow book) ->
      contains newline cell = false) ->
  handleExportClick bookData =
    downloadCsv (csvString bookData) (lit "book-list.csv") /\
  split newline (csvString bookData) =
    join [comma] headers ::
    map (fun book => join [comma] (bookRow book)) bookData /\
  List.length (split newline (csvString bookData)) =
    (List.length bookData + 1)%nat.
Proof.
  intros Hne Hcells.
  assert (E : split newline (csvString bookData) =
              join [comma] headers ::
              map (fun book => join [comma] (bookRow book)) bookData).
  { unfold csvString. rewrite csvLines_map.
    apply split_join; [discriminate|].
    constructor; [reflexivity|].
    apply Forall_forall. intros line Hin.
    apply in_map_iff in Hin as [book [<- Hbook]].
    apply contains_join; [discriminate|].
    apply Forall_forall. intros cell Hcell.
    exact (Hcells book cell Hbook Hcell). }
  split; [now apply handleExportClick_nonempty|].
  split; [exact E|].
  rewrite E. cbn [List.length]. rewrite length_map. lia.
Qed.

Lemma csvString_line_count_witness :
  [Sample.obrien VNull] <> [] /\
  List.length (split newline (csvString [Sample.obrien VNull])) = 2%nat.
Proof.
  split; [discriminate|].
  refine (proj2 (proj2 (csvString_line_count [Sample.obrien VNull] _ _))).
  - discriminate.
  - intros book cell [<-|[]] Hcell. simpl in Hcell.
    destruct Hcell as [<-|[<-|[<-|[]]]]; reflexivity.
Defined.

(** C8: a reader finds in every document a header line of three columns
    followed by one line per record, and in each of these lines as many
    cells as the header has columns; they are the cells of the [row]
    array, three for every record. *)
Theorem rows_as_wide_as_header (bookData : list Book.t) :
  exists (header : jsstring) (rows : list jsstring),
    records (csvString bookData) = header :: rows /\
    fields header = headers /\
    List.length (fields header) = 3%nat /\
    rows = map (fun book => join [comma] (bookRow book)) bookData /\
    Forall (fun line =>
              List.length (fields line) = List.length (fields header)) rows /\
    Forall (fun book =>
              fields (join [comma] (bookRow book)) = bookRow book /\
              List.length (bookRow book) = List.length headers) bookData.
Proof.
  exists (join [comma] headers),
         (map (fun book => join [comma] (bookRow book)) bookData).
  assert (Hh : fields (join [comma] headers) = headers) by reflexivity.
  split; [apply records_csvString|].
  split; [exact Hh|].
  split; [reflexivity|].
  split; [reflexivity|].
  split.
  - apply Forall_forall. intros line Hin.
    apply in_map_iff in Hin as [book [<- _]].
    rewrite fields_line, Hh. reflexivity.
  - apply Forall_forall. intros book _.
    split; [apply fields_line | reflexivity].
Qed.

Lemma doubled_nil (s : jsstring) :
  replace_quotes [quote; quote] s = [] -> s = [].
Proof.
  destruct s as [|c t]; [reflexivity|]. cbn [replace_quotes].
  destruct (c =? quote); discriminate.
Qed.

Lemma escapeText_not_two_quotes (s : jsstring) :
  escapeText s <> [quote; quote].
Proof.
  rewrite escapeText_cases.
  destruct (existsb needs_wrap s) eqn:E; intros H.
  - injection H as H.
    destruct (replace_quotes [quote; quote] s) as [|c t] eqn:D.
    + apply doubled_nil in D. subst s. discriminate.
    + destruct t; discriminate.
  - rewrite <- doubled_needs_wrap, H in E. discriminate.
Qed.

(** A reader gets the text of a value back from its cell. *)
Lemma read_cell_escapeText (s : jsstring) : read_cell (escapeText s) = Some s.
Proof.
rewrite escapeText_cases.
destruct (existsb needs_wrap s) eqn:E.
- cbn [app read_cell]. rewrite N.eqb_refl.
  rewrite rev_app_distr. cbn [rev app]. rewrite N.eqb_refl.
  rewrite rev_involutive. apply undouble_doubled.
- assert (Hq : contains quote s = false).
  { destruct (contains quote s) eqn:Eq; [|reflexivity].
    now rewrite (contains_needs_wrap quote s eq_refl Eq) in E. }
  rewrite (doubled_without_quote s Hq).
  destruct s as [|c t]; [reflexivity|]. cbn [read_cell].
  unfold contains in Hq. cbn [existsb] in Hq.
  apply orb_false_iff in Hq as [Hc _].
  rewrite N.eqb_sym in Hc. now rewrite Hc.
Qed.

(** C10: the empty string passes through as an empty, unquoted cell;
    the two-quote cell is written for null and undefined and for no other
    value; so a record without author reference, whose author cell is the
    escaped empty string, shows an empty cell where a record whose author
    has a null or undefined name shows the two quotes. *)
Theorem formatCsvCell_empty_string_distinct :
  formatCsvCell (VString []) = [] /\
  (forall v : value,
      formatCsvCell v = [quote; quote] <-> v = VNull \/ v = VUndefined) /\
  (forall book : Book.t,
      Book.Author__r book = None ->
      join [comma] (bookRow book) =
        formatCsvCell (Book.Name book) ++ [comma] ++ [] ++ [comma] ++
        formatCsvCell (Book.Book_Genre__c book)) /\
  (forall (book : Book.t) (a : Author.t),
      Book.Author__r book = Some a ->
      loosely_null (Author.Name a) = true ->
      join [comma] (bookRow book) =
        formatCsvCell (Book.Name book) ++ [comma] ++ [quote; quote] ++
        [comma] ++ formatCsvCell (Book.Book_Genre__c book)).
Proof.
  split; [reflexivity|]. split; [|split].
  - intros v; split.
    + destruct v as [| |[|]|s]; cbn [formatCsvCell]; intros H; auto.
      * discriminate.
      * discriminate.
      * now apply escapeText_not_two_quotes in H.
    + intros [-> | ->]; reflexivity.
  - intros book H. rewrite bookRow_cells, H. reflexivity.
  - intros book a H Hn. rewrite bookRow_cells, H.
    destruct (Author.Name a); try discriminate; reflexivity.
Qed.

Lemma formatCsvCell_empty_string_distinct_witness :
  join [comma] (bookRow (Sample.obrien VNull)) =
    ([quote] ++ lit "O'Brien, J." ++ [quote]) ++ [comma] ++ [] ++ [comma] ++
    lit "Sci-Fi".
Proof.
  exact (proj1 (proj2 (proj2 formatCsvCell_empty_string_distinct))
               (Sample.obrien VNull) eq_refl).
Defined.

End DocumentClaims.

(** ** encodeURI, read back *)

Section EncodeURI.

Import Uri UriReading.

Lemma unescaped_ascii (c : code_unit) :
  unescaped c = true -> c <= 127 /\ c <> 37.
Proof.
  unfold unescaped, is_ascii_word, mem_lit.
  cbn -[N.eqb N.leb]. intros H.
  rewrite ?orb_true_iff, ?andb_true_iff, ?N.leb_le, ?N.eqb_eq in H.
  lia.
Qed.




Lemma utf8_octets_bound (cp : N) :
  cp < 1114112 -> Forall (fun o => o < 256) (utf8_octets cp).
Proof.
  intros H. unfold utf8_octets.
  assert (H64 : forall n, n mod 64 < 64) by (intros; apply N.mod_lt; lia).
  destruct (cp <=? 127) eqn:E1; [apply N.leb_le in E1|apply N.leb_gt in E1].
  { repeat constructor; lia. }
  destruct (cp <=? 2047) eqn:E2; [apply N.leb_le in E2|apply N.leb_gt in E2].
  { assert (cp / 64 < 32) by (apply N.Div0.div_lt_upper_bound; lia).
    pose proof (H64 cp). repeat constructor; lia. }
  destruct (cp <=? 65535) eqn:E3; [apply N.leb_le in E3|apply N.leb_gt in E3].
  { assert (cp / 4096 < 16) by (apply N.Div0.div_lt_upper_bound; lia).
    pose proof (H64 cp). pose proof (H64 (cp / 64)).
    repeat constructor; lia. }
  assert (cp / 262144 < 5) by (apply N.Div0.div_lt_upper_bound; lia).
  pose proof (H64 cp). pose proof (H64 (cp / 64)).
  pose proof (H64 (cp / 4096)).
  repeat constructor; lia.
Qed.


Lemma surrogate_pair_bound (lead trail : code_unit) :
  is_leading_surrogate lead = true -> is_trailing_surrogate trail = true ->
  surrogate_pair lead trail < 1114112.
Proof.
  unfold is_leading_surrogate, is_trailing_surrogate, surrogate_pair.
  rewrite !andb_true_iff, !N.leb_le. lia.
Qed.




(** At an unpaired surrogate [encodeURI] raises. *)
Lemma encodeURI_raises_bounded (n : nat) :
  forall s : jsstring,
    (List.length s <= n)%nat ->
    well_formed s = false -> encodeURI s = None.
Proof.
  induction n as [|n IH]; intros s Hlen Hs.
  - destruct s; [discriminate | simpl in Hlen; lia].
  - destruct s as [|c t]; [discriminate|].
    cbn [List.length] in Hlen.
    cbn [well_formed] in Hs. cbn [encodeURI].
    destruct (unescaped c) eqn:Eu.
    + destruct (unescaped_ascii c Eu) as [Hle Hne].
      assert (El : is_leading_surrogate c = false).
      { unfold is_leading_surrogate. apply andb_false_iff; left.
        apply N.leb_gt; lia. }
      assert (Et : is_trailing_surrogate c = false).
      { unfold is_trailing_surrogate. apply andb_false_iff; left.
        apply N.leb_gt; lia. }
      rewrite El, Et in Hs.
      now rewrite (IH t ltac:(lia) Hs).
    + destruct (is_trailing_surrogate c) eqn:Et; [reflexivity|].
      destruct (is_leading_surrogate c) eqn:El.
      * destruct t as [|d t']; [reflexivity|].
        destruct (is_trailing_surrogate d); [|reflexivity].
        cbn [andb List.length] in *.
        now rewrite (IH t' ltac:(lia) Hs).
      * now rewrite (IH t ltac:(lia) Hs).
Qed.

(** The number sign is among the code units [encodeURI] copies: the
address holds it as it is. *)
Lemma encodeURI_number_sign (s : jsstring) :
  encodeURI (35 :: s) = option_map (cons 35) (encodeURI s).
Proof. reflexivity. Qed.

(** The byte-order mark is escaped as its three UTF-8 octets, and what
    follows it is encoded as it is without the mark. *)
Lemma encodeURI_bom (s : jsstring) :
  encodeURI ([bom] ++ s) = option_map (app (lit "%EF%BB%BF")) (encodeURI s).
Proof. reflexivity. Qed.


End EncodeURI.

(** ** Delivery and the empty export *)

Section Delivery.

Import Uri UriReading.

Lemma removeChild_appended (w : world) (e : element) :
  node e = fresh_node w -> fresh_node_unused w = true ->
  filter (fun c => negb (Nat.eqb (node c) (node e))) (push (body w) e) =
    body w /\
  existsb (fun c => Nat.eqb (node c) (node e)) (push (body w) e) = true.
Proof.
  intros He Hfresh. unfold fresh_node_unused in Hfresh. unfold push.
  rewrite filter_app, existsb_app. cbn [filter existsb].
  rewrite Nat.eqb_refl. cbn [negb]. rewrite app_nil_r, orb_true_r.
  split; [|reflexivity].
  rewrite He. apply forallb_filter_id. exact Hfresh.
Qed.

(** What [downloadCsv] does once [encodeURI] has returned. *)
Lemma downloadCsv_encoded (csvData fileName uri : jsstring) (w : world) :
  encodeURI ([bom] ++ csvData) = Some uri ->
  fresh_node_unused w = true ->
  downloadCsv csvData fileName w =
    Ok (tt, {| this := this w;
               fresh_node := S (fresh_node w);
               body := body w;
               clicks :=
                 clicks w ++
                 [{| node := fresh_node w;
                     href := lit "data:text/csv;charset=utf-8," ++ uri;
                     target := lit "_blank";
                     download := fileName |}];
               dispatched := dispatched w |}).
Proof.
  intros Hu Hfresh.
  unfold downloadCsv, bind, createElement_a, call_encodeURI.
  rewrite Hu. unfold ret, appendChild, click, removeChild.
  cbn [this fresh_node body clicks dispatched node].
  destruct (removeChild_appended w
              {| node := fresh_node w;
                 href := lit "data:text/csv;charset=utf-8," ++ uri;
                 target := lit "_blank";
                 download := fileName |} eq_refl Hfresh)
    as [Hf He].
  cbn [node] in Hf, He.
  rewrite He, Hf. reflexivity.
Qed.

Lemma downloadCsv_raises (csvData fileName : jsstring) (w : world) :
  well_formed csvData = false ->
  downloadCsv csvData fileName w = Throw URIError.
Proof.
  intros H.
  unfold downloadCsv, bind, createElement_a, call_encodeURI.
  rewrite encodeURI_bom.
  rewrite (encodeURI_raises_bounded _ csvData (le_n _) H). reflexivity.
Qed.

(** A returning [downloadCsv] dispatches nothing, leaves the component
    alone and has the host clicked once. *)
Lemma downloadCsv_returned (csvData fileName : jsstring) (w w' : world) :
  downloadCsv csvData fileName w = Ok (tt, w') ->
  dispatched w' = dispatched w /\ this w' = this w /\
  exists a : element, clicks w' = clicks w ++ [a].
Proof.
  unfold downloadCsv, bind, createElement_a, call_encodeURI.
  destruct (encodeURI ([bom] ++ csvData)) as [uri|]; [|discriminate].
  unfold ret, appendChild, click, removeChild.
  cbn [this fresh_node body clicks dispatched node].
  destruct (existsb _ _); [|discriminate].
  intros H. injection H as <-. cbn.
  repeat split. eexists. reflexivity.
Qed.

(** C6: on an empty record sequence the export returns with the one
    No Data toast dispatched and everything else as it was: the component,
    the document and the clicks received by the host, so nothing is
    delivered.  On a non-empty sequence the export is the delivery of the
    built document, and when it returns no toast has been dispatched and
    the host has been clicked. *)
Theorem handleExportClick_no_data (w : world) :
  handleExportClick [] w =
    Ok (tt, {| this := this w;
               fresh_node := fresh_node w;
               body := body w;
               clicks := clicks w;
               dispatched :=
                 dispatched w ++
                 [{| title := lit "No Data";
                     message := lit "No data to export.";
                     variant := lit "info" |}] |}) /\
  (forall (bookData : list Book.t) (w' : world),
      bookData <> [] ->
      handleExportClick bookData w = Ok (tt, w') ->
      dispatched w' = dispatched w /\ this w' = this w /\
      exists a : element, clicks w' = clicks w ++ [a]).
Proof.
  split; [reflexivity|].
  intros bookData w' Hne H.
  rewrite (handleExportClick_nonempty bookData Hne) in H.
  exact (downloadCsv_returned _ _ _ _ H).
Qed.

Lemma handleExportClick_no_data_witness :
  dispatched
    match handleExportClick [] Sample.page with
    | Ok (_, w') => w'
    | Throw _ => Sample.page
    end =
  [{| title := lit "No Data"; message := lit "No data to export.";
      variant := lit "info" |}] /\
  forall w' : world,
    handleExportClick [Sample.obrien VNull] Sample.page = Ok (tt, w') ->
    dispatched w' = [].
Proof.
  split.
  - rewrite (proj1 (handleExportClick_no_data Sample.page)). reflexivity.
  - intros w' H.
    exact (proj1 (proj2 (handleExportClick_no_data Sample.page)
                        [Sample.obrien VNull] w'
                        ltac:(discriminate) H)).
Defined.

End Delivery.

(** ** More on the cell escaper and the document *)

Section CellsReadBack.

Import Csv.

Local Abbreviation dq := (replace_quotes [quote; quote]).

Lemma length_doubled (s : jsstring) :
  (List.length s <= List.length (dq s) <= 2 * List.length s)%nat.
Proof.
induction s as [|c t IH]; cbn [replace_quotes List.length]; [lia|].
destruct (c =? quote); cbn [app List.length]; lia.
Qed.

Lemma read_cell_formatCsvCell (v : value) :
  read_cell (formatCsvCell v) = Some (cell_text v).
Proof.
destruct v as [| |[|]|s]; cbn [formatCsvCell cell_text];
  try apply read_cell_escapeText; reflexivity.
Qed.

(** X1: a reader that splits the document at the newlines and commas
    outside quoted sections and un-doubles the quoted cells finds the
    three header labels and then, for every record in input order, the
    texts of its three values (the empty text for null and undefined),
    whatever commas, quotes and newlines the texts hold. *)
Theorem csvString_reads_back (bookData : list Book.t) :
  map (fun line => map read_cell (fields line)) (records (csvString bookData)) =
    map Some headers ::
    map (fun book => map (fun v => Some (cell_text v)) (book_values book))
        bookData.
Proof.
rewrite records_csvString. cbn [map]. f_equal.
rewrite map_map. apply map_ext. intros book.
rewrite fields_line, bookRow_cells. cbn [map book_values].
now rewrite !read_cell_formatCsvCell.
Qed.

(** X2: the escaper returns a string unchanged exactly when the string
    holds no quote, comma, newline or white space; otherwise the cell is
    longer than the string by at least the two delimiters. *)
Theorem formatCsvCell_identity_iff (s : jsstring) :
  (formatCsvCell (VString s) = s <-> existsb needs_wrap s = false) /\
  (existsb needs_wrap s = true ->
   (List.length s + 2 <= List.length (formatCsvCell (VString s)))%nat).
Proof.
cbn [formatCsvCell]. rewrite escapeText_cases.
pose proof (length_doubled s) as Hlen.
destruct (existsb needs_wrap s) eqn:E.
- split.
  + split; [|discriminate]. intros H.
    apply (f_equal (@List.length _)) in H.
    rewrite !length_app in H. cbn [List.length] in H. lia.
  + intros _. rewrite !length_app. cbn [List.length]. lia.
- split; [|discriminate]. split; [reflexivity|]. intros _.
  apply doubled_without_quote.
  destruct (contains quote s) eqn:Eq; [|reflexivity].
  now rewrite (contains_needs_wrap quote s eq_refl Eq) in E.
Qed.

Lemma formatCsvCell_identity_iff_witness :
  (List.length (lit "Sci Fi") + 2 <=
   List.length (formatCsvCell (VString (lit "Sci Fi"))))%nat.
Proof.
exact (proj2 (formatCsvCell_identity_iff (lit "Sci Fi")) eq_refl).
Defined.

(** X3: two different strings have different cells, and the cell of a
    string is never the cell written for null and undefined. *)
Theorem formatCsvCell_injective (s s' : jsstring) :
  s <> s' ->
  formatCsvCell (VString s) <> formatCsvCell (VString s') /\
  formatCsvCell (VString s) <> formatCsvCell VNull.
Proof.
intros Hne. split.
- intros H. apply Hne. apply (f_equal read_cell) in H.
  rewrite !read_cell_formatCsvCell in H. now injection H.
- apply escapeText_not_two_quotes.
Qed.

Lemma formatCsvCell_injective_witness :
  formatCsvCell (VString (lit "a,b")) <> formatCsvCell (VString (lit "a;b")).
Proof.
apply (formatCsvCell_injective (lit "a,b") (lit "a;b")). discriminate.
Defined.

(** X4: a cell is at least as long as the text of its value and at most
    twice as long plus the two delimiters. *)
Theorem formatCsvCell_length (v : value) :
  (List.length (cell_text v) <= List.length (formatCsvCell v) <=
   2 * List.length (cell_text v) + 2)%nat.
Proof.
assert (H : forall s,
           (List.length s <= List.length (escapeText s) <=
            2 * List.length s + 2)%nat).
{ intros s. rewrite escapeText_cases. pose proof (length_doubled s).
  destruct (existsb needs_wrap s); rewrite ?length_app;
    cbn [List.length]; lia. }
destruct v as [| |[|]|s]; cbn [formatCsvCell cell_text];
  try apply H; cbn [List.length]; lia.
Qed.

End CellsReadBack.

(** ** More on encodeURI and the delivery *)

Section EncodeURIMore.

Import Uri UriReading.

(** Induction for functions that consume one or two code units. *)
Lemma two_step_ind (P : jsstring -> Prop) :
  P [] ->
  (forall c t, P t -> P (tl t) -> P (c :: t)) ->
  forall s, P s.
Proof.
intros Hnil Hstep s.
enough (H : P s /\ P (tl s)) by apply H.
induction s as [|c t [IH1 IH2]]; [now split|].
split; [now apply Hstep | exact IH1].
Qed.

Lemma unescaped_no_surrogate (c : code_unit) :
  unescaped c = true ->
  is_leading_surrogate c = false /\ is_trailing_surrogate c = false.
Proof.
intros H. destruct (unescaped_ascii c H) as [Hle _].
unfold is_leading_surrogate, is_trailing_surrogate.
split; apply andb_false_iff; left; apply N.leb_gt; lia.
Qed.

Lemma encodeURI_returns (s : jsstring) :
  well_formed s = true -> exists uri, encodeURI s = Some uri.
Proof.
induction s as [|c t IH1 IH2] using two_step_ind; [now exists []|].
cbn [well_formed encodeURI].
destruct (unescaped c) eqn:Eu.
- destruct (unescaped_no_surrogate c Eu) as [-> ->].
  intros H. destruct (IH1 H) as [u ->]. now eexists.
- destruct (is_trailing_surrogate c); [discriminate|].
  destruct (is_leading_surrogate c).
  + destruct t as [|d t']; [discriminate|]. cbn [tl] in IH2.
    intros H. apply andb_true_iff in H as [-> H].
    destruct (IH2 H) as [u ->]. now eexists.
  + intros H. destruct (IH1 H) as [u ->]. now eexists.
Qed.

(** [encodeURI] raises exactly on the strings that hold an unpaired
    surrogate, and returns on all others. *)
Lemma encodeURI_raises_iff (s : jsstring) :
  (encodeURI s = None <-> well_formed s = false) /\
  (well_formed s = true <-> exists uri, encodeURI s = Some uri).
Proof.
assert (Hnone : well_formed s = false -> encodeURI s = None)
  by apply (encodeURI_raises_bounded _ s (le_n _)).
split; split.
- intros H. destruct (well_formed s) eqn:E; [|reflexivity].
  destruct (encodeURI_returns s E) as [u Hu]. congruence.
- exact Hnone.
- apply encodeURI_returns.
- intros [u Hu]. destruct (well_formed s) eqn:E; [reflexivity|].
  rewrite (Hnone eq_refl) in Hu. discriminate.
Qed.

(** The code units an address is made of. *)
Lemma hex_digit_unescaped (d : N) : d < 16 -> unescaped (hex_digit d) = true.
Proof.
intros H. unfold hex_digit, unescaped, is_ascii_word.
destruct (d <? 10) eqn:E;
  [apply N.ltb_lt in E | apply N.ltb_ge in E].
- replace ((48 <=? 48 + d) && (48 + d <=? 57)) with true.
  + now rewrite !orb_true_r.
  + symmetry. apply andb_true_iff. split; apply N.leb_le; lia.
- replace ((65 <=? 55 + d) && (55 + d <=? 90)) with true; [reflexivity|].
  symmetry. apply andb_true_iff. split; apply N.leb_le; lia.
Qed.

Lemma percent_alphabet (octet : N) :
  octet < 256 ->
  Forall (fun c => unescaped c || (c =? 37) = true) (percent octet).
Proof.
intros H. unfold percent.
assert (Hq : octet / 16 < 16) by (apply N.Div0.div_lt_upper_bound; lia).
assert (Hr : octet mod 16 < 16) by (apply N.mod_lt; lia).
repeat constructor.
- now rewrite (hex_digit_unescaped _ Hq).
- now rewrite (hex_digit_unescaped _ Hr).
Qed.

Lemma escape_alphabet (cp : N) :
  cp < 1114112 ->
  Forall (fun c => unescaped c || (c =? 37) = true) (escape_code_point cp).
Proof.
intros H. unfold escape_code_point.
pose proof (utf8_octets_bound cp H) as Hb.
induction Hb as [|o t Ho Ht IH]; [constructor|].
cbn [flat_map]. apply Forall_app. split; [now apply percent_alphabet|exact IH].
Qed.

Lemma encodeURI_alphabet_strong (s : jsstring) :
  wf_string s -> forall uri,
  encodeURI s = Some uri ->
  Forall (fun c => unescaped c || (c =? 37) = true) uri.
Proof.
induction s as [|c t IH1 IH2] using two_step_ind; intros Hwf uri.
- intros H. injection H as <-. constructor.
- inversion Hwf as [|? ? Hc Ht]; subst.
  cbn [encodeURI].
  destruct (unescaped c) eqn:Eu.
  + destruct (encodeURI t) as [u|] eqn:Et; [|discriminate].
    intros H. injection H as <-.
    constructor; [now rewrite Eu | now apply IH1].
  + destruct (is_trailing_surrogate c); [discriminate|].
    destruct (is_leading_surrogate c) eqn:El.
    * destruct t as [|d t']; [discriminate|].
      destruct (is_trailing_surrogate d) eqn:Ed; [|discriminate].
      inversion Ht as [|? ? Hd Ht']; subst.
      cbn [tl] in IH2.
      destruct (encodeURI t') as [u|] eqn:Et; [|discriminate].
      intros H. injection H as <-.
      apply Forall_app. split; [|now apply IH2].
      apply escape_alphabet. now apply surrogate_pair_bound.
    * destruct (encodeURI t) as [u|] eqn:Et; [|discriminate].
      intros H. injection H as <-.
      apply Forall_app. split; [|now apply IH1].
      apply escape_alphabet. lia.
Qed.

(** What [encodeURI] returns is made of percent signs and of the code
    units it copies: it is ASCII and holds no white space and no quote. *)
Lemma encodeURI_alphabet (s uri : jsstring) :
  wf_string s ->
  encodeURI s = Some uri ->
  Forall (fun c =>
            unescaped c || (c =? 37) = true /\
            c < 128 /\ is_js_whitespace c = false /\ c <> quote) uri.
Proof.
intros Hwf H.
pose proof (encodeURI_alphabet_strong s Hwf uri H) as Ha.
apply Forall_forall. intros c Hin.
rewrite Forall_forall in Ha. specialize (Ha c Hin).
split; [exact Ha|].
apply orb_true_iff in Ha as [Ha|Ha].
- destruct (unescaped_ascii c Ha) as [Hle _].
  split; [lia|]. split.
  + revert Ha. unfold unescaped, is_ascii_word, mem_lit, is_js_whitespace.
    cbn -[N.eqb N.leb]. intros Ha.
    rewrite ?orb_true_iff, ?andb_true_iff, ?N.leb_le, ?N.eqb_eq in Ha.
    rewrite ?orb_false_iff, ?andb_false_iff, ?N.leb_gt, ?N.eqb_neq.
    lia.
  + revert Ha. unfold unescaped, is_ascii_word, mem_lit, quote.
    cbn -[N.eqb N.leb]. intros Ha.
    rewrite ?orb_true_iff, ?andb_true_iff, ?N.leb_le, ?N.eqb_eq in Ha.
    lia.
- apply N.eqb_eq in Ha. subst c.
  split; [lia|]. split; [reflexivity | discriminate].
Qed.

End EncodeURIMore.

(** ** Which exports are delivered *)

Section ExportDelivered.

Import Uri UriReading.

Local Abbreviation dq := (replace_quotes [quote; quote]).











Lemma downloadCsv_raised (csvData fileName : jsstring) (w : world) :
  downloadCsv csvData fileName w = Throw URIError ->
  well_formed csvData = false.
Proof.
destruct (well_formed csvData) eqn:E; [|reflexivity].
destruct (encodeURI_returns _ E) as [uri Hu].
unfold downloadCsv, bind, createElement_a, call_encodeURI.
rewrite encodeURI_bom, Hu.
unfold ret, appendChild, click, removeChild.
cbn [option_map this fresh_node body clicks dispatched node].
destruct (existsb _ _); discriminate.
Qed.

(** X5: the delivery raises the URIError of [encodeURI] exactly when the
    text holds an unpaired surrogate, whatever the file name and the
    document. *)
Theorem downloadCsv_raises_iff (csvData fileName : jsstring) (w : world) :
  downloadCsv csvData fileName w = Throw URIError <->
  well_formed csvData = false.
Proof.
split; [apply downloadCsv_raised | apply downloadCsv_raises].
Qed.

Lemma downloadCsv_raises_iff_witness :
  downloadCsv (lit "a," ++ [56832]) (lit "x.csv") Sample.page =
    Throw URIError.
Proof.
apply (downloadCsv_raises_iff (lit "a," ++ [56832]) (lit "x.csv") Sample.page).
reflexivity.
Defined.

(** X6: when the delivery returns, the host has been clicked once more, on
    an anchor with the given file name and target _blank whose address is
    made of ASCII code units only, each a percent sign or a code unit
    [encodeURI] leaves alone: no white space, no newline and no quote of
    the text reaches the address as it is. *)
Theorem downloadCsv_address (csvData fileName : jsstring) (w w' : world) :
  wf_string csvData ->
  downloadCsv csvData fileName w = Ok (tt, w') ->
  exists a : element,
    clicks w' = clicks w ++ [a] /\
    download a = fileName /\
    target a = lit "_blank" /\
    Forall (fun c =>
              unescaped c || (c =? 37) = true /\
              c < 128 /\ is_js_whitespace c = false /\ c <> quote) (href a).
Proof.
intros Hwf.
unfold downloadCsv, bind, createElement_a, call_encodeURI.
destruct (encodeURI ([bom] ++ csvData)) as [uri|] eqn:Hu; [|discriminate].
unfold ret, appendChild, click, removeChild.
cbn [this fresh_node body clicks dispatched node].
destruct (existsb _ _); [|discriminate].
intros H. injection H as <-. cbn [clicks].
eexists. split; [reflexivity|]. cbn [download target href].
split; [reflexivity|]. split; [reflexivity|].
repeat (constructor;
        [split; [reflexivity|]; split; [reflexivity|];
         split; [reflexivity|discriminate]|]).
apply (encodeURI_alphabet ([bom] ++ csvData)); [|exact Hu].
constructor; [reflexivity | exact Hwf].
Qed.

Lemma downloadCsv_address_witness :
  exists (w' : world) (a : element),
    downloadCsv (lit "a b") (lit "x.csv") Sample.page = Ok (tt, w') /\
    clicks w' = clicks Sample.page ++ [a] /\
    download a = lit "x.csv".
Proof.
pose proof (downloadCsv_encoded (lit "a b") (lit "x.csv")
              (lit "%EF%BB%BFa%20b") Sample.page eq_refl eq_refl) as H.
destruct (downloadCsv_address (lit "a b") (lit "x.csv") Sample.page _
            ltac:(repeat constructor) H)
  as [a [Hc [Hd _]]].
eexists. exists a. split; [exact H|]. split; assumption.
Defined.





Lemma nodes_allocated_fresh (w : world) :
  nodes_allocated w = true -> fresh_node_unused w = true.
Proof.
unfold nodes_allocated, fresh_node_unused. rewrite !forallb_forall.
intros H c Hin. specialize (H c Hin).
apply Nat.ltb_lt in H. apply negb_true_iff, Nat.eqb_neq. lia.
Qed.

(** X9: in a document whose body holds only nodes made earlier, a
    delivery of a text without unpaired surrogates returns, leaves the body
    as it was (the anchor is added and removed again) and keeps that
    property of the document, so that the next delivery finds an unused
    node again. *)
Theorem downloadCsv_keeps_nodes (csvData fileName : jsstring) (w : world) :
  nodes_allocated w = true ->
  well_formed csvData = true ->
  exists w' : world,
    downloadCsv csvData fileName w = Ok (tt, w') /\
    body w' = body w /\
    nodes_allocated w' = true /\
    fresh_node_unused w' = true /\
    List.length (clicks w') = S (List.length (clicks w)).
Proof.
intros Hn Hs.
destruct (encodeURI_returns _ Hs) as [uri Hu].
eexists. split.
- apply downloadCsv_encoded; [|now apply nodes_allocated_fresh].
  rewrite encodeURI_bom, Hu. reflexivity.
- cbn [body fresh_node clicks].
  assert (Hn' : forallb (fun c => Nat.ltb (node c) (S (fresh_node w)))
                        (body w) = true).
  { unfold nodes_allocated in Hn. rewrite forallb_forall in *.
    intros c Hin. specialize (Hn c Hin).
    apply Nat.ltb_lt in Hn. apply Nat.ltb_lt. lia. }
  split; [reflexivity|]. split; [exact Hn'|]. split.
  + apply (nodes_allocated_fresh
             {| this := this w; fresh_node := S (fresh_node w);
                body := body w; clicks := _; dispatched := dispatched w |}).
    exact Hn'.
  + rewrite length_app. cbn [List.length]. lia.
Qed.

Lemma downloadCsv_keeps_nodes_witness :
  exists w' : world,
    downloadCsv (lit "a,b") (lit "x.csv") Sample.page = Ok (tt, w') /\
    body w' = body Sample.page.
Proof.
destruct (downloadCsv_keeps_nodes (lit "a,b") (lit "x.csv") Sample.page)
  as [w' [H [Hb _]]]; [reflexivity | reflexivity |].
exists w'. split; assumption.
Defined.

End ExportDelivered.

(** ** The forms *)

Section Forms.

Lemma trimStart_empty (s : jsstring) :
  is_empty (trimStart s) = forallb is_js_whitespace s.
Proof.
induction s as [|c t IH]; [reflexivity|].
cbn [trimStart forallb]. destruct (is_js_whitespace c); [exact IH|reflexivity].
Qed.

Lemma is_empty_rev (s : jsstring) : is_empty (rev s) = is_empty s.
Proof.
destruct s as [|c t]; [reflexivity|]. cbn [rev is_empty].
now destruct (rev t).
Qed.

Lemma forallb_rev (p : code_unit -> bool) (s : jsstring) :
  forallb p (rev s) = forallb p s.
Proof.
induction s as [|c t IH]; [reflexivity|].
cbn [rev forallb]. rewrite forallb_app, IH. cbn [forallb].
rewrite andb_true_r. apply andb_comm.
Qed.

Lemma trimStart_whitespace (s : jsstring) :
  forallb is_js_whitespace s = true -> trimStart s = [].
Proof.
intros H. rewrite <- trimStart_empty in H.
now destruct (trimStart s).
Qed.

Lemma trimStart_kept (s : jsstring) :
  forallb is_js_whitespace s = false ->
  forallb is_js_whitespace (trimStart s) = false.
Proof.
induction s as [|c t IH]; [discriminate|].
cbn [trimStart forallb]. destruct (is_js_whitespace c) eqn:E; [exact IH|].
intros _. cbn [forallb]. now rewrite E.
Qed.

(** [trim] leaves nothing exactly of the strings made of white space
    only. *)
Lemma trim_empty (s : jsstring) :
  is_empty (trim s) = forallb is_js_whitespace s.
Proof.
unfold trim, trimEnd. rewrite is_empty_rev, trimStart_empty, forallb_rev.
destruct (forallb is_js_whitespace s) eqn:E.
- now rewrite (trimStart_whitespace s E).
- now apply trimStart_kept.
Qed.

Lemma authorInvalid_blank (author : authorRow) :
  authorInvalid author = forallb is_js_whitespace (author_Name author).
Proof.
unfold authorInvalid. rewrite trim_empty.
now destruct (author_Name author).
Qed.

Lemma bookInvalid_blank (book : bookRowDraft) :
  bookInvalid book =
    forallb is_js_whitespace (book_Name book) ||
    negb (truthy (book_Author__c book)).
Proof.
unfold bookInvalid. rewrite trim_empty.
now destruct (book_Name book).
Qed.

Lemma existsb_pointwise {A : Type} (p q : A -> bool) (l : list A) :
  (forall x, p x = q x) -> existsb p l = existsb q l.
Proof.
intros H. induction l as [|x t IH]; [reflexivity|].
cbn [existsb]. now rewrite H, IH.
Qed.

Lemma flag_fold {A : Type} (p : A -> bool) (l : list A) (flag : bool) :
  fold_left (fun hasInvalidRow x => if p x then true else hasInvalidRow)
            l flag =
    flag || existsb p l.
Proof.
revert flag. induction l as [|x t IH]; intros flag; cbn [fold_left existsb].
- now rewrite orb_false_r.
- rewrite IH. destruct (p x), flag; reflexivity.
Qed.

Local Abbreviation blankAuthor now :=
  {| author_tempId := now; author_Name := []; author_Pseudonyms__c := [];
     author_Date_of_Birth__c := VNull |}.

Local Abbreviation blankBook now :=
  {| book_tempId := now; book_Name := []; book_Book_Genre__c := [];
     book_Author__c := VNull |}.

Local Abbreviation with_this w c :=
  {| this := c; fresh_node := fresh_node w; body := body w;
     clicks := clicks w; dispatched := dispatched w |}.

Local Abbreviation with_toast w t m v :=
  {| this := this w; fresh_node := fresh_node w; body := body w;
     clicks := clicks w;
     dispatched := dispatched w ++ [{| title := t; message := m;
                                       variant := v |}] |}.

Local Abbreviation closed c :=
  {| isAddAuthorModalOpen := false;
     authorsToCreate := [];
     isAddBookModalOpen := false;
     booksToCreate := [];
     genreOptions := genreOptions c;
     defaultBookRecordTypeId := defaultBookRecordTypeId c;
     isDeleteAuthorModalOpen := false;
     authorToDeleteId := VNull |}.

Lemma handleModalClose_run (w : world) :
  handleModalClose w = Ok (tt, with_this w (closed (this w))).
Proof. reflexivity. Qed.

(** X10: closing the modals closes all three, discards the drafts of both
    forms and the author chosen for deletion, and keeps the genre options
    and the record type; the Delete button is disabled afterwards, and
    closing again changes nothing. *)
Theorem handleModalClose_resets (w : world) :
  exists w' : world,
    handleModalClose w = Ok (tt, w') /\
    this w' = closed (this w) /\
    isDeleteButtonDisabled (this w') = true /\
    (dispatched w' = dispatched w /\ clicks w' = clicks w /\
     body w' = body w) /\
    handleModalClose w' = Ok (tt, w').
Proof.
exists (with_this w (closed (this w))).
repeat split.
Qed.

Lemma handleAddAuthor_run (now : Z) (w : world) :
  handleAddAuthor now w =
    Ok (tt, with_this w
              (set_authorsToCreate
                 match authorsToCreate (this w) with
                 | [] => [blankAuthor now]
                 | _ :: _ => authorsToCreate (this w)
                 end
                 (set_isAddAuthorModalOpen true (this w)))).
Proof.
unfold handleAddAuthor, handleAddAuthorRow, bind, assign_this, get_this, ret.
cbn [this fresh_node body clicks dispatched set_isAddAuthorModalOpen
     authorsToCreate].
destruct (authorsToCreate (this w)) eqn:E; cbn [List.length Nat.eqb].
- cbn [this set_authorsToCreate set_isAddAuthorModalOpen authorsToCreate
       fresh_node body clicks dispatched isAddAuthorModalOpen
       isAddBookModalOpen booksToCreate genreOptions defaultBookRecordTypeId
       isDeleteAuthorModalOpen authorToDeleteId].
  rewrite E. reflexivity.
- unfold set_authorsToCreate, set_isAddAuthorModalOpen.
  cbn [authorsToCreate isAddAuthorModalOpen isAddBookModalOpen booksToCreate
       genreOptions defaultBookRecordTypeId isDeleteAuthorModalOpen
       authorToDeleteId].
  rewrite E. reflexivity.
Qed.

Lemma handleAddBook_run (now : Z) (w : world) :
  handleAddBook now w =
    Ok (tt, with_this w
              (set_booksToCreate
                 match booksToCreate (this w) with
                 | [] => [blankBook now]
                 | _ :: _ => booksToCreate (this w)
                 end
                 (set_isAddBookModalOpen true (this w)))).
Proof.
unfold handleAddBook, handleAddBookRow, bind, assign_this, get_this, ret.
cbn [this fresh_node body clicks dispatched set_isAddBookModalOpen
     booksToCreate].
destruct (booksToCreate (this w)) eqn:E; cbn [List.length Nat.eqb].
- cbn [this set_booksToCreate set_isAddBookModalOpen authorsToCreate
       fresh_node body clicks dispatched isAddAuthorModalOpen
       isAddBookModalOpen booksToCreate genreOptions defaultBookRecordTypeId
       isDeleteAuthorModalOpen authorToDeleteId].
  rewrite E. reflexivity.
- unfold set_booksToCreate, set_isAddBookModalOpen.
  cbn [authorsToCreate isAddAuthorModalOpen isAddBookModalOpen booksToCreate
       genreOptions defaultBookRecordTypeId isDeleteAuthorModalOpen
       authorToDeleteId].
  rewrite E. reflexivity.
Qed.

(** X11: opening the Add Author form, or the Add Book form, shows the form
    with at least one row: the drafts already there are kept as they are,
    and a form without drafts gets one blank row whose [tempId] is the
    time of the call.  The other form is not touched. *)
Theorem handleAdd_shows_rows (now : Z) (w : world) :
  (exists w' : world,
      handleAddAuthor now w = Ok (tt, w') /\
      isAddAuthorModalOpen (this w') = true /\
      authorsToCreate (this w') <> [] /\
      (authorsToCreate (this w) <> [] ->
       authorsToCreate (this w') = authorsToCreate (this w)) /\
      (authorsToCreate (this w) = [] ->
       authorsToCreate (this w') = [blankAuthor now]) /\
      booksToCreate (this w') = booksToCreate (this w) /\
      isAddBookModalOpen (this w') = isAddBookModalOpen (this w)) /\
  (exists w' : world,
      handleAddBook now w = Ok (tt, w') /\
      isAddBookModalOpen (this w') = true /\
      booksToCreate (this w') <> [] /\
      (booksToCreate (this w) <> [] ->
       booksToCreate (this w') = booksToCreate (this w)) /\
      (booksToCreate (this w) = [] ->
       booksToCreate (this w') = [blankBook now]) /\
      authorsToCreate (this w') = authorsToCreate (this w) /\
      isAddAuthorModalOpen (this w') = isAddAuthorModalOpen (this w)).
Proof.
split; eexists; (split; [apply handleAddAuthor_run || apply handleAddBook_run|]);
  cbn [this set_authorsToCreate set_booksToCreate set_isAddAuthorModalOpen
       set_isAddBookModalOpen authorsToCreate booksToCreate
       isAddAuthorModalOpen isAddBookModalOpen].
- destruct (authorsToCreate (this w)); repeat split;
    try discriminate; try reflexivity; intros H; congruence.
- destruct (booksToCreate (this w)); repeat split;
    try discriminate; try reflexivity; intros H; congruence.
Qed.

Lemma handleAdd_shows_rows_witness :
  exists w' : world,
    handleAddAuthor 41 (SampleForm.with_component Sample.closed_component) =
      Ok (tt, w') /\
    authorsToCreate (this w') = [blankAuthor 41%Z].
Proof.
destruct (proj1 (handleAdd_shows_rows
                   41 (SampleForm.with_component Sample.closed_component)))
  as [w' [H [_ [_ [_ [Hblank _]]]]]].
exists w'. split; [exact H | exact (Hblank eq_refl)].
Defined.

Lemma handleRemoveAuthorRow_run
    (loosely_equals : Z -> jsstring -> bool) (event : inputEvent) (now : Z)
    (w : world) :
  handleRemoveAuthorRow loosely_equals event now w =
    Ok (tt, with_this w
              (set_authorsToCreate
                 match filter (fun author =>
                                 negb (loosely_equals (author_tempId author)
                                         (target_dataset_id event)))
                              (authorsToCreate (this w)) with
                 | [] => [blankAuthor now]
                 | x :: t => x :: t
                 end
                 (this w))).
Proof.
unfold handleRemoveAuthorRow, handleAddAuthorRow, bind, assign_this,
  get_this, ret.
cbn [this fresh_node body clicks dispatched set_authorsToCreate
     authorsToCreate].
destruct (filter _ (authorsToCreate (this w))) eqn:E;
  cbn [List.length Nat.eqb]; reflexivity.
Qed.

Lemma handleRemoveBookRow_run
    (loosely_equals : Z -> jsstring -> bool) (event : inputEvent) (now : Z)
    (w : world) :
  handleRemoveBookRow loosely_equals event now w =
    Ok (tt, with_this w
              (set_booksToCreate
                 match filter (fun book =>
                                 negb (loosely_equals (book_tempId book)
                                         (target_dataset_id event)))
                              (booksToCreate (this w)) with
                 | [] => [blankBook now]
                 | x :: t => x :: t
                 end
                 (this w))).
Proof.
unfold handleRemoveBookRow, handleAddBookRow, bind, assign_this,
  get_this, ret.
cbn [this fresh_node body clicks dispatched set_booksToCreate
     booksToCreate].
destruct (filter _ (booksToCreate (this w))) eqn:E;
  cbn [List.length Nat.eqb]; reflexivity.
Qed.

(** X12: removing a row from either form never leaves the form without
    rows.  The rows whose [tempId] does not loosely equal the id of the
    event stay, in their order; every row whose [tempId] does is removed;
    when none stays the form gets one blank row whose [tempId] is the time
    of the call. *)
Theorem handleRemoveRow_keeps_a_row
    (loosely_equals : Z -> jsstring -> bool) (event : inputEvent) (now : Z)
    (w : world) :
  (exists w' : world,
      handleRemoveAuthorRow loosely_equals event now w = Ok (tt, w') /\
      authorsToCreate (this w') <> [] /\
      authorsToCreate (this w') =
        match filter (fun author =>
                        negb (loosely_equals (author_tempId author)
                                (target_dataset_id event)))
                     (authorsToCreate (this w)) with
        | [] => [blankAuthor now]
        | x :: t => x :: t
        end /\
      booksToCreate (this w') = booksToCreate (this w)) /\
  (exists w' : world,
      handleRemoveBookRow loosely_equals event now w = Ok (tt, w') /\
      booksToCreate (this w') <> [] /\
      booksToCreate (this w') =
        match filter (fun book =>
                        negb (loosely_equals (book_tempId book)
                                (target_dataset_id event)))
                     (booksToCreate (this w)) with
        | [] => [blankBook now]
        | x :: t => x :: t
        end /\
      authorsToCreate (this w') = authorsToCreate (this w)).
Proof.
split; eexists;
  (split; [apply handleRemoveAuthorRow_run || apply handleRemoveBookRow_run|]);
  cbn [this set_authorsToCreate set_booksToCreate authorsToCreate
       booksToCreate].
- destruct (filter _ (authorsToCreate (this w)));
    repeat split; discriminate.
- destruct (filter _ (booksToCreate (this w)));
    repeat split; discriminate.
Qed.

(** X13: two author rows added within the same millisecond carry the same
    [tempId]; removing the row with that id removes both of them.  With
    the other rows not matching the id, the form is back to the rows it
    had, or to one blank row when it had none. *)
Theorem same_time_rows_removed_together
    (loosely_equals : Z -> jsstring -> bool) (event : inputEvent)
    (now later : Z) (w : world) :
  loosely_equals now (target_dataset_id event) = true ->
  forallb (fun author =>
             negb (loosely_equals (author_tempId author)
                     (target_dataset_id event)))
          (authorsToCreate (this w)) = true ->
  (handleAddAuthorRow now ;;; handleAddAuthorRow now ;;;
   handleRemoveAuthorRow loosely_equals event later) w =
    Ok (tt, with_this w
              (set_authorsToCreate
                 match authorsToCreate (this w) with
                 | [] => [blankAuthor later]
                 | x :: t => x :: t
                 end
                 (this w))).
Proof.
intros Hnow Hrest.
unfold bind at 1 2. unfold handleAddAuthorRow at 1 2. unfold assign_this.
rewrite handleRemoveAuthorRow_run.
cbn [this fresh_node body clicks dispatched set_authorsToCreate
     authorsToCreate isAddAuthorModalOpen isAddBookModalOpen booksToCreate
     genreOptions defaultBookRecordTypeId isDeleteAuthorModalOpen
     authorToDeleteId].
unfold push. rewrite !filter_app. cbn [filter author_tempId].
rewrite Hnow. cbn [negb]. rewrite !app_nil_r.
rewrite (forallb_filter_id _ _ Hrest).
reflexivity.
Qed.

Lemma same_time_rows_removed_together_witness :
  exists w' : world,
    (handleAddAuthorRow 99 ;;; handleAddAuthorRow 99 ;;;
     handleRemoveAuthorRow SampleForm.decimal_equals
       (SampleForm.click_on "99") 100)
      (SampleForm.with_component SampleForm.editing) = Ok (tt, w') /\
    authorsToCreate (this w') = authorsToCreate SampleForm.editing.
Proof.
eexists. split.
- apply (same_time_rows_removed_together SampleForm.decimal_equals
           (SampleForm.click_on "99") 99 100
           (SampleForm.with_component SampleForm.editing));
    reflexivity.
- reflexivity.
Defined.

Lemma handleSaveAuthors_begin_validates_run (w : world) :
  (existsb (fun author => forallb is_js_whitespace (author_Name author))
           (authorsToCreate (this w)) = true ->
   handleSaveAuthors_begin w =
     Ok (Returned,
         with_toast w (lit "Validation Error")
                    (lit "Author Name is required.") (lit "error"))) /\
  (existsb (fun author => forallb is_js_whitespace (author_Name author))
           (authorsToCreate (this w)) = false ->
   handleSaveAuthors_begin w =
     Ok (Awaits
           (map (fun author =>
                   {| clean_author_Name := author_Name author;
                      clean_author_Pseudonyms__c :=
                        author_Pseudonyms__c author;
                      clean_author_Date_of_Birth__c :=
                        author_Date_of_Birth__c author |})
                (authorsToCreate (this w))),
         w)).
Proof.
unfold handleSaveAuthors_begin, bind, get_this.
rewrite flag_fold. cbn [orb].
rewrite (existsb_pointwise authorInvalid
           (fun author => forallb is_js_whitespace (author_Name author)))
  by (intros a; apply authorInvalid_blank).
split; intros ->; reflexivity.
Qed.

(** X14: saving the authors asks Apex for nothing when some row has an
    empty name or a name made of white space only: the one Validation
    Error toast is dispatched and the component is as before.  Otherwise
    nothing is dispatched and the handler awaits [createAuthors] with the
    rows in their order, each without its [tempId]; a form without rows
    passes the check. *)
Theorem handleSaveAuthors_begin_validates (w : world) :
  (existsb (fun author => forallb is_js_whitespace (author_Name author))
           (authorsToCreate (this w)) = true ->
   handleSaveAuthors_begin w =
     Ok (Returned,
         with_toast w (lit "Validation Error")
                    (lit "Author Name is required.") (lit "error"))) /\
  (existsb (fun author => forallb is_js_whitespace (author_Name author))
           (authorsToCreate (this w)) = false ->
   handleSaveAuthors_begin w =
     Ok (Awaits
           (map (fun author =>
                   {| clean_author_Name := author_Name author;
                      clean_author_Pseudonyms__c :=
                        author_Pseudonyms__c author;
                      clean_author_Date_of_Birth__c :=
                        author_Date_of_Birth__c author |})
                (authorsToCreate (this w))),
         w)).
Proof. exact (handleSaveAuthors_begin_validates_run w). Qed.

Lemma handleSaveAuthors_begin_validates_witness :
  handleSaveAuthors_begin (SampleForm.with_component SampleForm.editing) =
    Ok (Returned,
        with_toast (SampleForm.with_component SampleForm.editing)
                   (lit "Validation Error")
                   (lit "Author Name is required.") (lit "error")) /\
  handleSaveAuthors_begin
    (SampleForm.with_component Sample.closed_component) =
    Ok (Awaits [], SampleForm.with_component Sample.closed_component).
Proof.
split.
- apply (proj1 (handleSaveAuthors_begin_validates
                  (SampleForm.with_component SampleForm.editing))).
  reflexivity.
- apply (proj2 (handleSaveAuthors_begin_validates
                  (SampleForm.with_component Sample.closed_component))).
  reflexivity.
Defined.

(** X15: saving the books asks Apex for nothing when some row has an empty
    or white-space name or no author chosen (a null, undefined or empty
    [Author__c]); otherwise it awaits [createBooks] with the rows in their
    order, each without its [tempId]. *)
Theorem handleSaveBooks_begin_validates (w : world) :
  (existsb (fun book => forallb is_js_whitespace (book_Name book) ||
                        negb (truthy (book_Author__c book)))
           (booksToCreate (this w)) = true ->
   handleSaveBooks_begin w =
     Ok (Returned,
         with_toast w (lit "Validation Error")
                    (lit "Book Name and Author are required.")
                    (lit "error"))) /\
  (existsb (fun book => forallb is_js_whitespace (book_Name book) ||
                        negb (truthy (book_Author__c book)))
           (booksToCreate (this w)) = false ->
   handleSaveBooks_begin w =
     Ok (Awaits
           (map (fun book =>
                   {| clean_book_Name := book_Name book;
                      clean_book_Book_Genre__c := book_Book_Genre__c book;
                      clean_book_Author__c := book_Author__c book |})
                (booksToCreate (this w))),
         w)).
Proof.
unfold handleSaveBooks_begin, bind, get_this.
rewrite flag_fold. cbn [orb].
rewrite (existsb_pointwise bookInvalid
           (fun book => forallb is_js_whitespace (book_Name book) ||
                        negb (truthy (book_Author__c book))))
  by (intros b; apply bookInvalid_blank).
split; intros ->; reflexivity.
Qed.

Lemma handleSaveBooks_begin_validates_witness :
  handleSaveBooks_begin (SampleForm.with_component SampleForm.editing) =
    Ok (Returned,
        with_toast (SampleForm.with_component SampleForm.editing)
                   (lit "Validation Error")
                   (lit "Book Name and Author are required.") (lit "error")).
Proof.
apply (proj1 (handleSaveBooks_begin_validates
                (SampleForm.with_component SampleForm.editing))).
reflexivity.
Defined.



(** X17: confirming the deletion is refused exactly when the Delete button
    is disabled: with no author chosen (null, undefined or an empty id) the
    Error toast is dispatched and nothing is asked of Apex; with an author
    chosen the handler awaits [deleteAuthorAndBooks] with that id and
    dispatches nothing.  The author is the one of the last change event of
    the picker, and after the modals have been closed the confirmation is
    refused again. *)
Theorem handleConfirmDeleteAuthor_guard (w : world) :
  (isDeleteButtonDisabled (this w) = true ->
   handleConfirmDeleteAuthor_begin w =
     Ok (Returned,
         with_toast w (lit "Error")
                    (lit "Please select an author to delete.")
                    (lit "error"))) /\
  (isDeleteButtonDisabled (this w) = false ->
   handleConfirmDeleteAuthor_begin w =
     Ok (Awaits (authorToDeleteId (this w)), w)) /\
  (forall event : inputEvent,
      truthy (detail_recordId event) = true ->
      (handleAuthorToDeleteChange event ;;; handleConfirmDeleteAuthor_begin) w =
        Ok (Awaits (detail_recordId event),
            with_this w (set_authorToDeleteId (detail_recordId event)
                                              (this w)))) /\
  (handleModalClose ;;; handleConfirmDeleteAuthor_begin) w =
    Ok (Returned,
        with_toast (with_this w (closed (this w))) (lit "Error")
                   (lit "Please select an author to delete.") (lit "error")).
Proof.
unfold isDeleteButtonDisabled.
split; [|split; [|split]].
- intros H. unfold handleConfirmDeleteAuthor_begin, bind, get_this.
  rewrite H. reflexivity.
- intros H. unfold handleConfirmDeleteAuthor_begin, bind, get_this.
  rewrite H. reflexivity.
- intros event H.
  unfold handleAuthorToDeleteChange, handleConfirmDeleteAuthor_begin,
    assign_this, get_this, bind.
  cbn [this set_authorToDeleteId authorToDeleteId].
  rewrite H. reflexivity.
- reflexivity.
Qed.

Lemma handleConfirmDeleteAuthor_guard_witness :
  handleConfirmDeleteAuthor_begin
    (SampleForm.with_component SampleForm.editing) =
    Ok (Awaits (VString (lit "a01")),
        SampleForm.with_component SampleForm.editing) /\
  handleConfirmDeleteAuthor_begin
    (SampleForm.with_component Sample.closed_component) =
    Ok (Returned,
        with_toast (SampleForm.with_component Sample.closed_component)
                   (lit "Error") (lit "Please select an author to delete.")
                   (lit "error")).
Proof.
split.
- apply (proj1 (proj2 (handleConfirmDeleteAuthor_guard
                         (SampleForm.with_component SampleForm.editing)))).
  reflexivity.
- apply (proj1 (handleConfirmDeleteAuthor_guard
                  (SampleForm.with_component Sample.closed_component))).
  reflexivity.
Defined.

End Forms.

(** ** What a reader of the address receives *)

Section DataUrlPayload.

Import Uri UriReading Csv.









End DataUrlPayload.
